(** * Lane-centring range-scan pipeline (HT16_P2_EL2425)

    A shallow embedding of the two [dist_finder_lidar.py] nodes:

    - [centerline_mpc/src/dist_finder_lidar.py]  (module [MPC])
    - [centerline_pid/src/dist_finder_lidar.py]  (module [PID])

    Conventions of the embedding.

    - A Python float is a [pyfloat]: not-a-number, one of the two
      infinities, or a finite value.  Finite values are idealised as real
      numbers: arithmetic on them is exact (no rounding), and the special
      values follow the IEEE rules Python uses.  The Python integers [0]
      and [50] that [getRange] substitutes are identified with the floats
      of the same value; no expression of the two files tells them apart.
    - A function that can raise returns a [result]: [Ok v], [Raise e] for
      a Python exception, or [OutOfFuel] when a [while] loop was cut off
      by the fuel of the model (not a Python outcome).
    - Values whose Python type matters for what happens (a list that is
      called, a [None] that is indexed) are [pyval]s.
    - [range_min] and [range_max] are free names in both files; they are
      parameters of the embedding, taken to be finite numbers.
    - [rospy.Time.now()] is an input of [MPC.callback]: the two readings
      the callback makes are passed as arguments, in nanoseconds. *)

From Stdlib Require Import Reals Lra Lia ZArith List Bool String.
Import ListNotations.
Local Open Scope R_scope.

(** ** Exceptions and results *)

Inductive exn : Set :=
| IndexError
| ValueError
| TypeError
| NameError
| ZeroDivisionError.

Inductive result (A : Type) : Type :=
| Ok (a : A)
| Raise (e : exn)
| OutOfFuel.

Arguments Ok {A} a.
Arguments Raise {A} e.
Arguments OutOfFuel {A}.

Definition bind {A B : Type} (m : result A) (k : A -> result B) : result B :=
  match m with
  | Ok a => k a
  | Raise e => Raise e
  | OutOfFuel => OutOfFuel
  end.

Declare Scope py_scope.
Delimit Scope py_scope with py.
Notation "x <- m ;; k" := (bind m (fun x => k))
  (at level 61, m at next level, right associativity) : py_scope.
Notation "m ;;; k" := (bind m (fun _ => k))
  (at level 61, right associativity) : py_scope.
Local Open Scope py_scope.

(** What a subscriber sees of a callback run: the message it published,
    if it got as far as [pub.publish]. *)
Definition published {A : Type} (r : result A) : option A :=
  match r with
  | Ok a => Some a
  | _ => None
  end.

(** ** Python floats *)

Inductive pyfloat : Type :=
| NaN
| PInf
| NInf
| Fin (x : R).

Definition Rltb (x y : R) : bool := if Rlt_dec x y then true else false.
Definition Rleb (x y : R) : bool := if Rle_dec x y then true else false.
Definition Reqb (x y : R) : bool := if Req_dec_T x y then true else false.

(** [math.isnan], [math.isinf] *)
Definition isnan (a : pyfloat) : bool :=
  match a with NaN => true | _ => false end.

Definition isinf (a : pyfloat) : bool :=
  match a with PInf | NInf => true | _ => false end.

Definition is_finite (a : pyfloat) : bool :=
  match a with Fin _ => true | _ => false end.

(** [a < b]: false as soon as one side is not-a-number. *)
Definition flt (a b : pyfloat) : bool :=
  match a, b with
  | NaN, _ | _, NaN => false
  | _, NInf => false
  | NInf, _ => true
  | PInf, _ => false
  | Fin _, PInf => true
  | Fin x, Fin y => Rltb x y
  end.

(** [a <= b] *)
Definition fle (a b : pyfloat) : bool :=
  match a, b with
  | NaN, _ | _, NaN => false
  | NInf, _ => true
  | _, NInf => false
  | _, PInf => true
  | PInf, _ => false
  | Fin x, Fin y => Rleb x y
  end.

(** [a > b], [a >= b], [a == b] *)
Definition fgt (a b : pyfloat) : bool := flt b a.
Definition fge (a b : pyfloat) : bool := fle b a.

Definition feq (a b : pyfloat) : bool :=
  match a, b with
  | PInf, PInf | NInf, NInf => true
  | Fin x, Fin y => Reqb x y
  | _, _ => false
  end.

Definition fneg (a : pyfloat) : pyfloat :=
  match a with
  | NaN => NaN
  | PInf => NInf
  | NInf => PInf
  | Fin x => Fin (- x)
  end.

Definition fadd (a b : pyfloat) : pyfloat :=
  match a, b with
  | NaN, _ | _, NaN => NaN
  | PInf, NInf | NInf, PInf => NaN
  | PInf, _ | _, PInf => PInf
  | NInf, _ | _, NInf => NInf
  | Fin x, Fin y => Fin (x + y)
  end.

Definition fsub (a b : pyfloat) : pyfloat := fadd a (fneg b).

(** An infinity scaled by a finite factor: the sign decides, zero gives
    not-a-number. *)
Definition scale_inf (inf : pyfloat) (x : R) : pyfloat :=
  if Rltb 0 x then inf else if Rltb x 0 then fneg inf else NaN.

Definition fmul (a b : pyfloat) : pyfloat :=
  match a, b with
  | NaN, _ | _, NaN => NaN
  | Fin x, Fin y => Fin (x * y)
  | Fin x, inf => scale_inf inf x
  | inf, Fin y => scale_inf inf y
  | PInf, PInf | NInf, NInf => PInf
  | PInf, NInf | NInf, PInf => NInf
  end.

(** [a / b] on Python floats: a zero divisor raises. *)
Definition fdiv (a b : pyfloat) : result pyfloat :=
  match b with
  | Fin y =>
      if Reqb y 0 then Raise ZeroDivisionError
      else Ok (match a with
               | Fin x => Fin (x / y)
               | NaN => NaN
               | inf => scale_inf inf y
               end)
  | NaN => Ok NaN
  | _ => Ok (match a with Fin _ => Fin 0 | _ => NaN end)
  end.

(** [np.pi], [np.radians], [np.cos], [np.arctan] *)
Definition np_pi : pyfloat := Fin PI.

Definition np_radians (a : pyfloat) : pyfloat :=
  match a with
  | Fin x => Fin (x * PI / 180)
  | other => other
  end.

Definition np_cos (a : pyfloat) : pyfloat :=
  match a with
  | Fin x => Fin (cos x)
  | _ => NaN
  end.

Definition np_arctan (a : pyfloat) : pyfloat :=
  match a with
  | Fin x => Fin (atan x)
  | PInf => Fin (PI / 2)
  | NInf => Fin (- (PI / 2))
  | NaN => NaN
  end.

(** [float(n)] for an integer [n] *)
Definition float_of_int (n : Z) : pyfloat := Fin (IZR n).

(** ** Python values, sequences and names *)

#[warnings="-register-all"]
Inductive pyval : Type :=
| PyNone
| PyInt (n : Z)
| PyFloat (x : pyfloat)
| PyList (l : list pyval).

(** [f(args)] where [f] is a value of this model: neither [None], a
    number nor a list is callable. *)
Definition py_call (f : pyval) (args : list pyval) : result pyval :=
  Raise TypeError.

(** [l[i]] on a sequence: a negative index counts from the end; an index
    outside [-len, len) raises. *)
Definition py_index {A : Type} (l : list A) (i : Z) : result A :=
  let n := Z.of_nat (List.length l) in
  let j := if (i <? 0)%Z then (i + n)%Z else i in
  if ((j <? 0) || (n <=? j))%Z then Raise IndexError
  else match nth_error l (Z.to_nat j) with
       | Some a => Ok a
       | None => Raise IndexError
       end.

(** [v[i]] on a value: only a list can be indexed. *)
Definition py_getitem (v : pyval) (i : Z) : result pyval :=
  match v with
  | PyList l => py_index l i
  | _ => Raise TypeError
  end.

(** A value used as a number. *)
Definition as_float (v : pyval) : result pyfloat :=
  match v with
  | PyFloat x => Ok x
  | PyInt n => Ok (float_of_int n)
  | _ => Raise TypeError
  end.

Definition as_int (v : pyval) : result Z :=
  match v with
  | PyInt n => Ok n
  | _ => Raise TypeError
  end.

(** [l.append(a, b)]: [append] takes exactly one argument. *)
Definition list_append2 {A B : Type} (l : list A) (a b : B) : result (list A) :=
  Raise TypeError.

(** Reading a name that is bound nowhere. *)
Definition undefined_name {A : Type} (name : string) : result A :=
  Raise NameError.

(** [l.index(x)]: the first position whose element equals [x]. *)
Fixpoint index_from (l : list pyfloat) (x : pyfloat) (i : Z) : result Z :=
  match l with
  | [] => Raise ValueError
  | y :: l' => if feq y x then Ok i else index_from l' x (i + 1)%Z
  end.

Definition list_index (l : list pyfloat) (x : pyfloat) : result Z :=
  index_from l x 0%Z.

(** [range(a, b)] *)
Definition py_range (a b : Z) : list Z :=
  map (fun n => (a + Z.of_nat n)%Z) (seq 0 (Z.to_nat (b - a))).

(** [sum(l)] *)
Definition py_sum (l : list pyfloat) : pyfloat :=
  fold_left fadd l (Fin 0).

(** A [for] loop whose body can raise, threading an accumulator. *)
Fixpoint for_each {A S : Type} (l : list A) (s : S)
         (body : S -> A -> result S) : result S :=
  match l with
  | [] => Ok s
  | a :: l' => s' <- body s a ;; for_each l' s' body
  end.

(** [while cond(x): x = step(x)] *)
Fixpoint while_loop {S : Type} (fuel : nat) (cond : S -> bool)
         (step : S -> S) (x : S) : result S :=
  if cond x then
    match fuel with
    | O => OutOfFuel
    | S fuel' => while_loop fuel' cond step (step x)
    end
  else Ok x.

(** The scan message: only [ranges] is read. *)
Record LaserScan : Type := { ranges : list pyfloat }.

(** An index at which [data.ranges] cannot be read. *)
Definition outside (data : LaserScan) (j : Z) : Prop :=
  (Z.of_nat (List.length (ranges data)) <= j \/
   j < - Z.of_nat (List.length (ranges data)))%Z.

(** ** The MPC variant: [centerline_mpc/src/dist_finder_lidar.py] *)

Module MPC.

Section Config.

(** The two thresholds [getRange] reads; the file binds neither. *)
Variables range_min range_max : R.

Definition vel : pyfloat := Fin 12.

(** [getRange], lines 34-39: the checks made on the value read. *)
Definition sanitize (distance : pyfloat) : pyfloat :=
  let distance :=
    if isnan distance || flt distance (Fin range_min) then Fin 0 else distance in
  let distance :=
    if isinf distance || fgt distance (Fin range_max) then Fin 50 else distance in
  distance.

Definition getRange (data : LaserScan) (beam_index : Z) : result pyfloat :=
  distance <- py_index (ranges data) beam_index ;;
  Ok (sanitize distance).

Definition getAverageRange (data : LaserScan) (beam_index : Z)
           (num_aux_scans_halfed : Z) : result pyfloat :=
  dist <- for_each
            (py_range (beam_index - num_aux_scans_halfed)
                      (beam_index + num_aux_scans_halfed + 1))
            (Fin 0)
            (fun dist i => r <- getRange data i ;; Ok (fadd dist r)) ;;
  fdiv dist (float_of_int (2 * num_aux_scans_halfed + 1)).

Definition getLateralRanges (data : LaserScan) : result pyval :=
  range_right <- getAverageRange data 180 2 ;;
  range_left <- getAverageRange data 900 2 ;;
  Ok (PyList [PyFloat range_right; PyFloat range_left]).

(** [get_minimum_range], lines 107-112: the running minimum. *)
Definition running_minimum (ranges_scan : list pyfloat) : pyfloat :=
  fold_left (fun min_range r => if flt r min_range then r else min_range)
            ranges_scan (Fin 1000).

(** Line 118 calls [append] with two arguments, and the function has no
    [return]. *)
Definition get_minimum_range (data : LaserScan) : result pyval :=
  let ranges_scan := ranges data in
  let min_range := running_minimum ranges_scan in
  min_index <- list_index ranges_scan min_range ;;
  let ret_list : list pyval := [] in
  list_append2 ret_list (PyFloat min_range) (PyInt min_index) ;;;
  Ok PyNone.

(** [callback], lines 128-132: the sampling time; clock values are in
    nanoseconds, [to_sec] gives seconds. *)
Definition sampling_time (timestamp_last_message : option Z) (now : Z) : pyfloat :=
  match timestamp_last_message with
  | None => Fin 0.01
  | Some t => Fin (IZR (now - t) / 1000000000)
  end.

(** [callback], lines 157-160: the two loops against angular overflow. *)
Definition normalize_angle (fuel : nat) (phi : pyfloat) : result pyfloat :=
  phi <- while_loop fuel (fun phi => fgt phi np_pi)
                    (fun phi => fsub phi (fmul (Fin 2) np_pi)) phi ;;
  while_loop fuel (fun phi => flt phi (fneg np_pi))
             (fun phi => fadd phi (fmul (Fin 2) np_pi)) phi.

(** [callback], lines 149-160: the heading.  [L_] and [R_] are the
    source's [L] and [R]. *)
Definition heading (fuel : nat) (L_ R_ : pyfloat) (min_index : Z) : result pyfloat :=
  let phi :=
    if fge L_ R_ then Fin (IZR (540 - min_index) / 4 - 90)
    else Fin (IZR (540 - min_index) / 4 + 90) in
  let phi := np_radians phi in
  normalize_angle fuel phi.

(** [callback], line 163: the displacement from the centerline. *)
Definition lateral_offset (L_ R_ phi : pyfloat) : pyfloat :=
  fmul (fmul (Fin 0.5) (fsub L_ R_)) (np_cos phi).

Record pose : Type := {
  header : pyval;
  x : pyfloat;
  y : pyfloat;
  psi : pyfloat;
  v : pyfloat;
  ts : pyfloat
}.

(** [callback]: the first component is [timestamp_last_message] after the
    run, the second what the run did.  [now1] and [now2] are the readings
    of lines 131 and 135. *)
Definition callback (fuel : nat) (timestamp_last_message : option Z)
           (now1 now2 : Z) (data : LaserScan) : option Z * result pose :=
  let ts := sampling_time timestamp_last_message now1 in
  (Some now2,
   ranges_list <- getLateralRanges data ;;
   R_ <- py_call ranges_list [PyInt 0] ;;
   L_ <- py_call ranges_list [PyInt 1] ;;
   min_list <- get_minimum_range data ;;
   min_range <- py_getitem min_list 0 ;;
   min_index <- py_getitem min_list 1 ;;
   (* from line 149 on the three values are used as numbers *)
   L_ <- as_float L_ ;;
   R_ <- as_float R_ ;;
   min_index <- as_int min_index ;;
   phi <- heading fuel L_ R_ min_index ;;
   let OC := lateral_offset L_ R_ phi in
   h <- undefined_name "h" ;;
   Ok {| header := h; x := Fin 0; y := OC; psi := phi; v := vel; ts := ts |}).

End Config.

End MPC.

(** ** The PID variant: [centerline_pid/src/dist_finder_lidar.py]

    Two statements of the file do not parse as they stand: the sums of
    [getLateralRanges] break the line after [+] without brackets, and the
    [for] of [getRangeSequenceSign] lacks its colon.  They are read as
    the single expression, and the loop header, they spell. *)

Module PID.

Section Config.

Variables range_min range_max : R.

Definition vel : pyfloat := Fin 30.

(** [getRange], lines 33-38. *)
Definition sanitize (distance : pyfloat) : pyfloat :=
  let distance :=
    if isnan distance || flt distance (Fin range_min) then Fin 0 else distance in
  let distance :=
    if fgt distance (Fin range_max) then Fin 50 else distance in
  distance.

Definition getRange (data : LaserScan) (beam_index : Z) : result pyfloat :=
  distance <- py_index (ranges data) beam_index ;;
  Ok (sanitize distance).

(** The sum of five beams divided by 5 (lines 63-69, 73-79, 82-88). *)
Definition five_beam_mean (data : LaserScan) (i0 i1 i2 i3 i4 : Z) : result pyfloat :=
  r0 <- getRange data i0 ;;
  r1 <- getRange data i1 ;;
  r2 <- getRange data i2 ;;
  r3 <- getRange data i3 ;;
  r4 <- getRange data i4 ;;
  fdiv (fadd (fadd (fadd (fadd r0 r1) r2) r3) r4) (Fin 5).

(** The list [distance] is built and dropped: there is no [return]. *)
Definition getLateralRanges (data : LaserScan) : result pyval :=
  range_right <- five_beam_mean data 178 179 180 181 182 ;;
  range_face <- five_beam_mean data 538 539 540 541 542 ;;
  range_left <- five_beam_mean data 898 899 900 901 902 ;;
  let distance := [range_right; range_face; range_left] in
  Ok PyNone.

(** [getRangeSequenceSign], lines 115-121: the list [distances]. *)
Definition difference_list (data : LaserScan) (beam_index length : Z)
  : result (list pyfloat) :=
  let length := if (length mod 2 =? 1)%Z then (length + 1)%Z else length in
  for_each (py_range (- length / 2) (length / 2 + 1)) []
           (fun distances i =>
              a <- getRange data (beam_index + i + 1) ;;
              b <- getRange data (beam_index + i) ;;
              Ok (distances ++ [fsub a b])).

(** Line 123 sums [distance], a name the function never binds. *)
Definition getRangeSequenceSign (data : LaserScan) (beam_index length : Z)
  : result pyfloat :=
  distances <- difference_list data beam_index length ;;
  distance <- undefined_name "distance" ;;
  Ok (py_sum distance).

Definition CCp : Z := 5.

(** [callback], line 161. *)
Definition first_tan_arg (L_ R_ : pyfloat) : result pyfloat :=
  fdiv (fsub L_ R_) (fmul (float_of_int (2 * CCp)) (fadd L_ R_)).

(** [callback], lines 168-171, given the value of the trend call. *)
Definition second_tan_arg (trend R_ F_ L_ : pyfloat) : result pyfloat :=
  if fgt trend (Fin 0) then fdiv (fneg R_) F_ else fdiv L_ F_.

(** [callback], line 179. *)
Definition angular_error (tan_arg_1 tan_arg_2 : pyfloat) : pyfloat :=
  fadd (fneg (np_arctan tan_arg_1)) (np_arctan tan_arg_2).

(** [callback], lines 182-185: the second loop tests [angle_error], a
    name bound nowhere. *)
Definition normalize_angle (fuel : nat) (error : pyfloat) : result pyfloat :=
  error <- while_loop fuel (fun error => fgt error np_pi)
                      (fun error => fsub error (fmul (Fin 2) np_pi)) error ;;
  angle_error <- undefined_name "angle_error" ;;
  while_loop fuel (fun _ => flt angle_error (fneg np_pi))
             (fun error => fadd error (fmul (Fin 2) np_pi)) error.

Record input_pid : Type := {
  pid_error : pyfloat;
  pid_vel : pyfloat
}.

Definition callback (fuel : nat) (data : LaserScan) : result input_pid :=
  ranges_list <- getLateralRanges data ;;
  R_ <- py_call ranges_list [PyInt 0] ;;
  F_ <- py_call ranges_list [PyInt 1] ;;
  L_ <- py_call ranges_list [PyInt 2] ;;
  (* from line 161 on the three values are used as numbers *)
  R_ <- as_float R_ ;;
  F_ <- as_float F_ ;;
  L_ <- as_float L_ ;;
  tan_arg_1 <- first_tan_arg L_ R_ ;;
  trend <- getRangeSequenceSign data 540 8 ;;
  tan_arg_2 <- second_tan_arg trend R_ F_ L_ ;;
  let error := angular_error tan_arg_1 tan_arg_2 in
  error <- normalize_angle fuel error ;;
  Ok {| pid_error := error; pid_vel := vel |}.

End Config.

End PID.

(** * Properties *)

(** ** Comparisons on the finite part *)

Lemma Rltb_true (x y : R) : Rltb x y = true <-> x < y.
Proof. unfold Rltb. destruct (Rlt_dec x y); split; intros; try lra; congruence. Qed.

Lemma Rltb_false (x y : R) : Rltb x y = false <-> y <= x.
Proof. unfold Rltb. destruct (Rlt_dec x y); split; intros; try lra; congruence. Qed.

Lemma Rleb_true (x y : R) : Rleb x y = true <-> x <= y.
Proof. unfold Rleb. destruct (Rle_dec x y); split; intros; try lra; congruence. Qed.

Lemma Rleb_false (x y : R) : Rleb x y = false <-> y < x.
Proof. unfold Rleb. destruct (Rle_dec x y); split; intros; try lra; congruence. Qed.

Lemma Reqb_true (x y : R) : Reqb x y = true <-> x = y.
Proof. unfold Reqb. destruct (Req_dec_T x y); split; intros; try lra; congruence. Qed.

Lemma Reqb_false (x y : R) : Reqb x y = false <-> x <> y.
Proof. unfold Reqb. destruct (Req_dec_T x y); split; intros; try lra; congruence. Qed.

(** Decide every comparison of reals in sight, then let [lra] look. *)
Ltac rdec :=
  unfold Rltb, Rleb, Reqb in *;
  repeat match goal with
         | |- context [Rlt_dec ?a ?b] => destruct (Rlt_dec a b)
         | |- context [Rle_dec ?a ?b] => destruct (Rle_dec a b)
         | |- context [Req_dec_T ?a ?b] => destruct (Req_dec_T a b)
         | H : context [Rlt_dec ?a ?b] |- _ => destruct (Rlt_dec a b)
         | H : context [Rle_dec ?a ?b] |- _ => destruct (Rle_dec a b)
         | H : context [Req_dec_T ?a ?b] |- _ => destruct (Req_dec_T a b)
         end;
  try reflexivity; try discriminate; try lra.

(** ** getRange *)

(** The case analysis of the contract, once the branch taken is known. *)
Ltac contract_cases :=
  repeat split; intros;
  repeat match goal with H : _ \/ _ |- _ => destruct H end;
  try reflexivity; try discriminate; try congruence;
  try (eexists; split; [reflexivity | lra]).

Lemma sanitize_agree (range_min range_max : R) (v : pyfloat) :
  MPC.sanitize range_min range_max v = PID.sanitize range_min range_max v.
Proof.
  destruct v as [ | | | x]; unfold MPC.sanitize, PID.sanitize; simpl; try reflexivity.
  destruct (Rltb x range_min); reflexivity.
Qed.

Lemma getRange_agree (range_min range_max : R) (data : LaserScan) (beam_index : Z) :
  MPC.getRange range_min range_max data beam_index =
  PID.getRange range_min range_max data beam_index.
Proof.
  unfold MPC.getRange, PID.getRange.
  destruct (py_index (ranges data) beam_index); simpl; try reflexivity.
  now rewrite sanitize_agree.
Qed.

(** C9. With the same finite thresholds the two variants of [getRange]
    agree on every raw beam value, hence on every scan and index: plus
    infinity passes the comparison with [range_max], minus infinity the
    one with [range_min], so leaving out [math.isinf] changes nothing. *)
Theorem getRange_variants_agree (range_min range_max : R) :
  (forall v : pyfloat,
      MPC.sanitize range_min range_max v = PID.sanitize range_min range_max v) /\
  (forall (data : LaserScan) (beam_index : Z),
      MPC.getRange range_min range_max data beam_index =
      PID.getRange range_min range_max data beam_index) /\
  fgt PInf (Fin range_max) = true /\
  flt NInf (Fin range_min) = true.
Proof.
  repeat split.
  - apply sanitize_agree.
  - apply getRange_agree.
Qed.

(** C4 (as amended).  With thresholds [0 <= range_min <= range_max <= 50],
    both variants return 0 for a raw value that is not-a-number or below
    [range_min] (minus infinity is one), 50 for plus infinity or a value
    above [range_max], and any other value unchanged; the result is a
    finite number of [[0, 50]]. *)
Theorem sanitize_contract (range_min range_max : R) (v : pyfloat) :
  0 <= range_min -> range_min <= range_max -> range_max <= 50 ->
  PID.sanitize range_min range_max v = MPC.sanitize range_min range_max v /\
  (isnan v = true \/ flt v (Fin range_min) = true ->
   MPC.sanitize range_min range_max v = Fin 0) /\
  (v = PInf \/ fgt v (Fin range_max) = true ->
   MPC.sanitize range_min range_max v = Fin 50) /\
  (isnan v = false -> flt v (Fin range_min) = false ->
   v <> PInf -> fgt v (Fin range_max) = false ->
   MPC.sanitize range_min range_max v = v) /\
  (exists x : R, MPC.sanitize range_min range_max v = Fin x /\ 0 <= x <= 50).
Proof.
  intros H0 Hmm H50. split.
  { symmetry. apply sanitize_agree. }
  assert (Hz : Rltb range_max 0 = false) by (apply Rltb_false; lra).
  unfold MPC.sanitize, fgt.
  destruct v as [ | | | x]; simpl; try rewrite Hz.
  - contract_cases.
  - contract_cases.
  - contract_cases.
  - destruct (Rltb x range_min) eqn:Hlo; simpl.
    + apply Rltb_true in Hlo.
      assert (Hx : Rltb range_max x = false) by (apply Rltb_false; lra).
      rewrite Hz. contract_cases.
    + apply Rltb_false in Hlo.
      destruct (Rltb range_max x) eqn:Hhi.
      * contract_cases.
      * apply Rltb_false in Hhi. contract_cases.
Qed.

(** The contract at thresholds 0 and 30 and a reading of 10. *)
Lemma sanitize_contract_witness :
  exists x : R, MPC.sanitize 0 30 (Fin 10) = Fin x /\ 0 <= x <= 50.
Proof.
  assert (H1 : 0 <= 0) by lra.
  assert (H2 : 0 <= 30) by lra.
  assert (H3 : 30 <= 50) by lra.
  exact (proj2 (proj2 (proj2 (proj2 (sanitize_contract 0 30 (Fin 10) H1 H2 H3))))).
Defined.

(** C4 (as stated) fails.  Minus infinity is infinite, yet both variants
    return 0 for it, not the substitute 50; and with a [range_max] above
    50 a reading between 50 and [range_max] comes back unchanged, outside
    [[0, 50]]. *)
Lemma sanitize_minus_infinity_is_zero :
  isinf NInf = true /\
  MPC.sanitize 0 30 NInf = Fin 0 /\
  PID.sanitize 0 30 NInf = Fin 0 /\
  MPC.sanitize 0 30 NInf <> Fin 50 /\
  MPC.sanitize 0 100 (Fin 70) = Fin 70 /\
  ~ (0 <= 70 <= 50).
Proof.
  assert (Hm : MPC.sanitize 0 30 NInf = Fin 0).
  { unfold MPC.sanitize, fgt; simpl. rdec. }
  assert (Hp : PID.sanitize 0 30 NInf = Fin 0).
  { unfold PID.sanitize, fgt; simpl. rdec. }
  repeat split; try assumption.
  - rewrite Hm. intros H. inversion H. lra.
  - unfold MPC.sanitize, fgt; simpl. rdec.
  - lra.
Qed.

(** ** The order on Python floats *)

Ltac fcases :=
  repeat match goal with
         | a : pyfloat |- _ => destruct a
         end;
  simpl in *; try reflexivity; try discriminate; rdec.

Lemma flt_fle (a b : pyfloat) : flt a b = true -> fle a b = true.
Proof. intros; fcases. Qed.

Lemma not_flt_fle (a b : pyfloat) :
  isnan a = false -> isnan b = false -> flt a b = false -> fle b a = true.
Proof. intros; fcases. Qed.

Lemma fle_refl (a : pyfloat) : isnan a = false -> fle a a = true.
Proof. intros; fcases. Qed.

Lemma fle_trans (a b c : pyfloat) :
  fle a b = true -> fle b c = true -> fle a c = true.
Proof. intros; fcases. Qed.

Lemma flt_not_nan (a b : pyfloat) : flt a b = true -> isnan a = false.
Proof. intros; fcases. Qed.

Lemma flt_asym (a b : pyfloat) : flt a b = true -> flt b a = false.
Proof. intros; fcases. Qed.

Lemma flt_not_feq (a b : pyfloat) : flt a b = true -> feq b a = false.
Proof. intros; fcases. Qed.

Lemma feq_eq (a b : pyfloat) : feq a b = true -> a = b.
Proof. intros; fcases. subst; reflexivity. Qed.

(** ** get_minimum_range *)

Section RunningMinimum.

Let keep_smaller (min_range r : pyfloat) : pyfloat :=
  if flt r min_range then r else min_range.

(** The loop of lines 110-112 from any start value that is a number. *)
Lemma running_minimum_from (l : list pyfloat) (m0 : pyfloat) :
  isnan m0 = false ->
  isnan (fold_left keep_smaller l m0) = false /\
  (fold_left keep_smaller l m0 = m0 \/ In (fold_left keep_smaller l m0) l) /\
  fle (fold_left keep_smaller l m0) m0 = true /\
  (forall r, In r l -> isnan r = false ->
             fle (fold_left keep_smaller l m0) r = true).
Proof.
  revert m0. induction l as [ | a l IH]; intros m0 Hm0; simpl.
  - repeat split; auto using fle_refl.
  - assert (Hk : isnan (keep_smaller m0 a) = false).
    { unfold keep_smaller. destruct (flt a m0) eqn:E; eauto using flt_not_nan. }
    assert (Hle : fle (keep_smaller m0 a) m0 = true).
    { unfold keep_smaller. destruct (flt a m0) eqn:E; auto using flt_fle, fle_refl. }
    destruct (IH _ Hk) as (Hn & Hin & Hb & Hall).
    repeat split; auto.
    + destruct Hin as [Heq | Hin]; auto.
      rewrite Heq. unfold keep_smaller. destruct (flt a m0); auto.
    + eauto using fle_trans.
    + intros r [Hra | Hr] Hnan; auto.
      subst a. apply fle_trans with (keep_smaller m0 r); auto.
      unfold keep_smaller. destruct (flt r m0) eqn:E; auto using fle_refl, not_flt_fle.
Qed.

(** A scan with nothing below the start value leaves it in place. *)
Lemma running_minimum_unchanged (l : list pyfloat) (m0 : pyfloat) :
  (forall r, In r l -> flt r m0 = false) -> fold_left keep_smaller l m0 = m0.
Proof.
  induction l as [ | a l IH]; intros H; simpl; auto.
  unfold keep_smaller at 2. rewrite (H a) by (left; reflexivity).
  apply IH. intros r Hr. apply H. right; assumption.
Qed.

End RunningMinimum.

Lemma index_from_outcome (l : list pyfloat) (x : pyfloat) (i : Z) :
  (exists j : Z, index_from l x i = Ok j) \/ index_from l x i = Raise ValueError.
Proof.
  revert i. induction l as [ | y l IH]; intros i; simpl; auto.
  destruct (feq y x); eauto.
Qed.

Lemma index_from_absent (l : list pyfloat) (x : pyfloat) (i : Z) :
  (forall y, In y l -> feq y x = false) -> index_from l x i = Raise ValueError.
Proof.
  revert i. induction l as [ | y l IH]; intros i H; simpl; auto.
  rewrite (H y) by (left; reflexivity).
  apply IH. intros z Hz. apply H. right; assumption.
Qed.

(** C10. The running minimum starts at the sentinel 1000.0 and moves only
    on a strict comparison: it is the least of 1000.0 and the ranges of
    the scan (ranges that are not-a-number never compare smaller and are
    passed over).  When the scan is not empty and every range exceeds
    1000.0, the sentinel survives, it is no element of the scan, and the
    index lookup of line 115 raises [ValueError]: no result is produced
    for the true minimum. *)
Theorem get_minimum_range_sentinel (data : LaserScan) :
  fle (MPC.running_minimum (ranges data)) (Fin 1000) = true /\
  (forall r, In r (ranges data) -> isnan r = false ->
             fle (MPC.running_minimum (ranges data)) r = true) /\
  (MPC.running_minimum (ranges data) = Fin 1000 \/
   In (MPC.running_minimum (ranges data)) (ranges data)) /\
  (ranges data <> [] ->
   (forall r, In r (ranges data) -> fgt r (Fin 1000) = true) ->
   MPC.running_minimum (ranges data) = Fin 1000 /\
   ~ In (Fin 1000) (ranges data) /\
   list_index (ranges data) (MPC.running_minimum (ranges data)) = Raise ValueError /\
   MPC.get_minimum_range data = Raise ValueError).
Proof.
  unfold MPC.running_minimum.
  destruct (running_minimum_from (ranges data) (Fin 1000) eq_refl)
    as (_ & Hin & Hle & Hall).
  repeat split; auto.
  - assert (Hm : MPC.running_minimum (ranges data) = Fin 1000).
    { apply running_minimum_unchanged. intros r Hr. apply flt_asym. apply H0, Hr. }
    exact Hm.
  - intros Hin'. specialize (H0 _ Hin'). unfold fgt in H0. simpl in H0. rdec.
  - assert (Hm : MPC.running_minimum (ranges data) = Fin 1000).
    { apply running_minimum_unchanged. intros r Hr. apply flt_asym. apply H0, Hr. }
    unfold MPC.running_minimum in Hm. rewrite Hm.
    apply index_from_absent. intros y Hy. apply flt_not_feq. apply H0, Hy.
  - assert (Hm : MPC.running_minimum (ranges data) = Fin 1000).
    { apply running_minimum_unchanged. intros r Hr. apply flt_asym. apply H0, Hr. }
    unfold MPC.get_minimum_range. rewrite Hm.
    unfold list_index. rewrite index_from_absent; [reflexivity | ].
    intros y Hy. apply flt_not_feq. apply H0, Hy.
Qed.

(** A one-beam scan reading 2000.0. *)
Lemma get_minimum_range_sentinel_witness :
  MPC.get_minimum_range {| ranges := [Fin 2000] |} = Raise ValueError.
Proof.
  assert (Hne : ranges {| ranges := [Fin 2000] |} <> []) by (simpl; discriminate).
  assert (Hbig : forall r, In r (ranges {| ranges := [Fin 2000] |}) ->
                           fgt r (Fin 1000) = true).
  { simpl. intros r [<- | []]. unfold fgt; simpl. apply Rltb_true. lra. }
  exact (proj2 (proj2 (proj2
           (proj2 (proj2 (proj2 (get_minimum_range_sentinel _))) Hne Hbig)))).
Defined.

(** C3 (code at fault).  On the scan [2.0, 1.0, 1.0] the loop finds the
    minimum 1.0 and the lookup its first index 1, but line 118 then calls
    [append] with two arguments and raises [TypeError].  On no scan does
    the function return a value: it raises [ValueError] from the lookup
    or [TypeError] from line 118 (and has no [return] after it). *)
Theorem get_minimum_range_raises :
  MPC.running_minimum [Fin 2; Fin 1; Fin 1] = Fin 1 /\
  list_index [Fin 2; Fin 1; Fin 1] (Fin 1) = Ok 1%Z /\
  MPC.get_minimum_range {| ranges := [Fin 2; Fin 1; Fin 1] |} = Raise TypeError /\
  (forall data : LaserScan,
      MPC.get_minimum_range data = Raise ValueError \/
      MPC.get_minimum_range data = Raise TypeError).
Proof.
  assert (Hmin : MPC.running_minimum [Fin 2; Fin 1; Fin 1] = Fin 1).
  { unfold MPC.running_minimum; simpl. rdec. }
  assert (Hidx : list_index [Fin 2; Fin 1; Fin 1] (Fin 1) = Ok 1%Z).
  { unfold list_index; simpl. rdec. }
  repeat split; auto.
  - unfold MPC.get_minimum_range. cbv zeta. simpl ranges.
    rewrite Hmin, Hidx. reflexivity.
  - intros data. unfold MPC.get_minimum_range, list_index.
    destruct (index_from_outcome (ranges data)
                (MPC.running_minimum (ranges data)) 0) as [[j Hj] | Hj];
      rewrite Hj; simpl; auto.
Qed.

(** ** The loops against angular overflow *)

Lemma nat_above (r : R) : exists n : nat, r <= INR n.
Proof.
  destruct (Rle_dec r 0) as [Hr | Hr].
  - exists 0%nat. simpl. lra.
  - destruct (archimed r) as [Hup _].
    exists (Z.to_nat (up r)).
    rewrite INR_IZR_INZ, Z2Nat.id; [lra | ].
    apply le_IZR. lra.
Qed.

Lemma while_loop_exit {S : Type} (fuel : nat) (cond : S -> bool) (step : S -> S) (x : S) :
  cond x = false -> while_loop fuel cond step x = Ok x.
Proof. intros H. destruct fuel; simpl; rewrite H; reflexivity. Qed.

Lemma while_loop_step {S : Type} (fuel : nat) (cond : S -> bool) (step : S -> S) (x : S) :
  cond x = true ->
  while_loop (Datatypes.S fuel) cond step x = while_loop fuel cond step (step x).
Proof. intros H. simpl. rewrite H. reflexivity. Qed.

Section Overflow.

Let above (phi : pyfloat) : bool := fgt phi np_pi.
Let lower (phi : pyfloat) : pyfloat := fsub phi (fmul (Fin 2) np_pi).
Let below (phi : pyfloat) : bool := flt phi (fneg np_pi).
Let raise_ (phi : pyfloat) : pyfloat := fadd phi (fmul (Fin 2) np_pi).

(** First loop: [n] turns are enough below [PI + 2 PI n]. *)
Lemma first_loop (n : nat) :
  forall x : R, x <= PI + 2 * PI * INR n ->
  exists y : R,
    (forall fuel, (n <= fuel)%nat -> while_loop fuel above lower (Fin x) = Ok (Fin y)) /\
    y <= PI /\ (x <= PI -> y = x) /\ (PI < x -> - PI < y) /\
    exists k : nat, y = x - 2 * PI * INR k.
Proof.
  pose proof PI_RGT_0 as Hpi.
  induction n as [ | n IH]; intros x Hx.
  - simpl in Hx. exists x. repeat split; try lra.
    + intros fuel _. apply while_loop_exit. unfold above, fgt; simpl.
      apply Rltb_false. lra.
    + exists 0%nat. simpl. lra.
  - destruct (Rle_dec x PI) as [Hle | Hgt].
    + exists x. repeat split; try lra.
      * intros fuel _. apply while_loop_exit. unfold above, fgt; simpl.
        apply Rltb_false. lra.
      * exists 0%nat. simpl. lra.
    + rewrite S_INR in Hx.
      destruct (IH (x + - (2 * PI))) as (y & Hrun & Hy & Hsame & Hlow & k & Hk); [lra | ].
      exists y. repeat split; try lra.
      * intros [ | fuel] Hf; [lia | ].
        rewrite while_loop_step.
        -- unfold lower; simpl. apply Hrun. lia.
        -- unfold above, fgt; simpl. apply Rltb_true. lra.
      * exists (S k). rewrite S_INR. lra.
Qed.

(** Second loop: [n] turns are enough above [- PI - 2 PI n]. *)
Lemma second_loop (n : nat) :
  forall x : R, - PI - 2 * PI * INR n <= x ->
  exists y : R,
    (forall fuel, (n <= fuel)%nat -> while_loop fuel below raise_ (Fin x) = Ok (Fin y)) /\
    - PI <= y /\ (- PI <= x -> y = x) /\ (x < - PI -> y < PI) /\
    exists k : nat, y = x + 2 * PI * INR k.
Proof.
  pose proof PI_RGT_0 as Hpi.
  induction n as [ | n IH]; intros x Hx.
  - simpl in Hx. exists x. repeat split; try lra.
    + intros fuel _. apply while_loop_exit. unfold below; simpl.
      apply Rltb_false. lra.
    + exists 0%nat. simpl. lra.
  - destruct (Rle_dec (- PI) x) as [Hle | Hgt].
    + exists x. repeat split; try lra.
      * intros fuel _. apply while_loop_exit. unfold below; simpl.
        apply Rltb_false. lra.
      * exists 0%nat. simpl. lra.
    + rewrite S_INR in Hx.
      destruct (IH (x + 2 * PI)) as (y & Hrun & Hy & Hsame & Hlow & k & Hk); [lra | ].
      exists y. repeat split; try lra.
      * intros [ | fuel] Hf; [lia | ].
        rewrite while_loop_step.
        -- unfold raise_; simpl. apply Hrun. lia.
        -- unfold below; simpl. apply Rltb_true. lra.
      * exists (S k). rewrite S_INR. lra.
Qed.

End Overflow.

(** Both loops on a finite angle: they stop, and the angle ends in the
    closed interval, moved by a whole number of turns. *)
Lemma normalize_angle_runs (x : R) :
  exists (y : R) (n : nat),
    (forall fuel, (n <= fuel)%nat -> MPC.normalize_angle fuel (Fin x) = Ok (Fin y)) /\
    - PI <= y <= PI /\
    (- PI <= x <= PI -> y = x) /\
    exists k : Z, y = x + 2 * IZR k * PI.
Proof.
  pose proof PI_RGT_0 as Hpi.
  destruct (nat_above ((x - PI) / (2 * PI))) as [n1 Hn1].
  assert (Hx1 : x <= PI + 2 * PI * INR n1).
  { apply Rmult_le_compat_r with (r := 2 * PI) in Hn1; [ | lra].
    replace ((x - PI) / (2 * PI) * (2 * PI)) with (x - PI) in Hn1 by (field; lra).
    lra. }
  destruct (first_loop n1 x Hx1) as (y1 & Hrun1 & Hy1 & Hsame1 & Hlow1 & k1 & Hk1).
  destruct (nat_above ((- PI - y1) / (2 * PI))) as [n2 Hn2].
  assert (Hx2 : - PI - 2 * PI * INR n2 <= y1).
  { apply Rmult_le_compat_r with (r := 2 * PI) in Hn2; [ | lra].
    replace ((- PI - y1) / (2 * PI) * (2 * PI)) with (- PI - y1) in Hn2 by (field; lra).
    lra. }
  destruct (second_loop n2 y1 Hx2) as (y2 & Hrun2 & Hy2 & Hsame2 & Hlow2 & k2 & Hk2).
  exists y2, (Nat.max n1 n2). repeat split.
  - intros fuel Hf. unfold MPC.normalize_angle.
    rewrite Hrun1 by lia. simpl. apply Hrun2. lia.
  - assumption.
  - destruct (Rle_dec (- PI) y1); [rewrite Hsame2 by assumption; lra | ].
    apply Rlt_le, Hlow2. lra.
  - intros [Hlo Hhi]. rewrite Hsame2, Hsame1; lra.
  - exists (Z.of_nat k2 - Z.of_nat k1)%Z.
    rewrite minus_IZR, <- !INR_IZR_INZ. lra.
Qed.

(** An angle of the closed interval passes both loops untouched. *)
Lemma normalize_angle_inside (fuel : nat) (x : R) :
  - PI <= x <= PI -> MPC.normalize_angle fuel (Fin x) = Ok (Fin x).
Proof.
  intros [Hlo Hhi]. unfold MPC.normalize_angle.
  rewrite while_loop_exit by (unfold fgt; simpl; apply Rltb_false; lra).
  unfold bind. apply while_loop_exit. simpl. apply Rltb_false. lra.
Qed.

Lemma normalize_angle_at_minus_pi (fuel : nat) :
  MPC.normalize_angle fuel (Fin (- PI)) = Ok (Fin (- PI)).
Proof. pose proof PI_RGT_0. apply normalize_angle_inside. lra. Qed.

Lemma while_loop_more_fuel {S : Type} (cond : S -> bool) (step : S -> S) (y : S) :
  forall (fuel fuel' : nat) (x : S),
    while_loop fuel cond step x = Ok y -> (fuel <= fuel')%nat ->
    while_loop fuel' cond step x = Ok y.
Proof.
  induction fuel as [ | fuel IH]; intros fuel' x; simpl.
  - destruct (cond x) eqn:E; [discriminate | ].
    intros H _. rewrite while_loop_exit by assumption. exact H.
  - destruct (cond x) eqn:E.
    + intros H Hle. destruct fuel' as [ | fuel']; [lia | ].
      rewrite while_loop_step by assumption. apply IH; [exact H | lia].
    + intros H _. rewrite while_loop_exit by assumption. exact H.
Qed.

Lemma normalize_angle_more_fuel (fuel fuel' : nat) (phi y : pyfloat) :
  MPC.normalize_angle fuel phi = Ok y -> (fuel <= fuel')%nat ->
  MPC.normalize_angle fuel' phi = Ok y.
Proof.
  unfold MPC.normalize_angle. intros H Hle.
  match type of H with
  | bind ?m _ = _ => destruct m as [phi1 | e | ] eqn:H1; simpl in H; try discriminate
  end.
  rewrite (while_loop_more_fuel _ _ _ _ _ _ H1 Hle). simpl.
  exact (while_loop_more_fuel _ _ _ _ _ _ H Hle).
Qed.

(** C5 (as amended).  For every finite angle [x] the two loops of the
    MPC callback stop, after at most [|x| / (2 PI)] turns each, and leave
    a value [y] of the closed interval [[-PI, PI]] that differs from [x]
    by a whole number of turns; an angle already in the interval, [-PI]
    included, is returned as it is. *)
Theorem normalize_angle_closed_interval (x : R) :
  exists (y : R) (n : nat),
    Rabs x / (2 * PI) <= INR n /\
    (forall fuel : nat,
        Rabs x / (2 * PI) <= INR fuel ->
        MPC.normalize_angle fuel (Fin x) = Ok (Fin y)) /\
    - PI <= y <= PI /\
    (- PI <= x <= PI -> y = x) /\
    (exists k : Z, y = x + 2 * IZR k * PI).
Proof.
  pose proof PI_RGT_0 as Hpi.
  destruct (normalize_angle_runs x) as (y & n0 & Hrun & Hy & Hsame & Hk).
  destruct (nat_above (Rabs x / (2 * PI))) as [n Hn].
  exists y, n. repeat split; try tauto.
  intros fuel Hfuel.
  assert (Hx : Rabs x <= 2 * PI * INR fuel).
  { apply Rmult_le_compat_r with (r := 2 * PI) in Hfuel; [ | lra].
    replace (Rabs x / (2 * PI) * (2 * PI)) with (Rabs x) in Hfuel by (field; lra).
    lra. }
  assert (Habs : - Rabs x <= x <= Rabs x).
  { unfold Rabs. destruct (Rcase_abs x); lra. }
  destruct (first_loop fuel x) as (y1 & Hrun1 & Hy1 & Hsame1 & Hlow1 & _); [lra | ].
  destruct (second_loop fuel y1) as (y2 & Hrun2 & _).
  { destruct (Rle_dec x PI) as [Hle | Hgt].
    - rewrite Hsame1 by assumption. lra.
    - assert (- PI < y1) by (apply Hlow1; lra).
      pose proof (pos_INR fuel). nra. }
  assert (Hhere : MPC.normalize_angle fuel (Fin x) = Ok (Fin y2)).
  { unfold MPC.normalize_angle. rewrite Hrun1 by lia. simpl. apply Hrun2. lia. }
  pose proof (normalize_angle_more_fuel _ (Nat.max fuel n0) _ _ Hhere
                (Nat.le_max_l _ _)) as Hup.
  rewrite Hrun in Hup by lia.
  inversion Hup; subst. exact Hhere.
Qed.

(** C5 (as stated) fails at [-PI]: the second loop tests [phi < -PI], so
    [-PI] is left in place, outside the half-open interval. *)
Lemma normalize_angle_keeps_minus_pi :
  MPC.normalize_angle 8 (Fin (- PI)) = Ok (Fin (- PI)) /\
  ~ (- PI < - PI <= PI).
Proof.
  split; [apply normalize_angle_at_minus_pi | lra].
Qed.

(** ** The pose of the MPC variant *)

Lemma lateral_offset_finite (L_ R_ phi : R) :
  MPC.lateral_offset (Fin L_) (Fin R_) (Fin phi) = Fin (0.5 * (L_ - R_) * cos phi).
Proof. reflexivity. Qed.

(** C1 (as amended).  From averaged ranges [R], [L] and a beam index
    [min_index], lines 149-163 compute the heading
    [radians((540 - min_index)/4 - 90)] when [L >= R] and
    [radians((540 - min_index)/4 + 90)] otherwise, brought into the closed
    interval [[-PI, PI]] by whole turns (and left as it is when it is
    already there), and the offset [0.5 * (L - R) * cos(phi)], which is 0
    when [L = R]. *)
Theorem heading_and_offset (L_ R_ : R) (min_index : Z) :
  exists (phi : R) (n : nat),
    (forall fuel, (n <= fuel)%nat ->
       MPC.heading fuel (Fin L_) (Fin R_) min_index = Ok (Fin phi)) /\
    - PI <= phi <= PI /\
    (R_ <= L_ ->
     (exists k : Z,
         phi = (IZR (540 - min_index) / 4 - 90) * PI / 180 + 2 * IZR k * PI) /\
     (- PI <= (IZR (540 - min_index) / 4 - 90) * PI / 180 <= PI ->
      phi = (IZR (540 - min_index) / 4 - 90) * PI / 180)) /\
    (L_ < R_ ->
     (exists k : Z,
         phi = (IZR (540 - min_index) / 4 + 90) * PI / 180 + 2 * IZR k * PI) /\
     (- PI <= (IZR (540 - min_index) / 4 + 90) * PI / 180 <= PI ->
      phi = (IZR (540 - min_index) / 4 + 90) * PI / 180)) /\
    MPC.lateral_offset (Fin L_) (Fin R_) (Fin phi) =
      Fin (0.5 * (L_ - R_) * cos phi) /\
    (L_ = R_ -> MPC.lateral_offset (Fin L_) (Fin R_) (Fin phi) = Fin 0).
Proof.
  unfold MPC.heading, fge; simpl fle.
  destruct (Rleb R_ L_) eqn:Hcmp; simpl np_radians;
    match goal with
    | |- context [MPC.normalize_angle _ (Fin ?a)] =>
        destruct (normalize_angle_runs a) as (phi & n & Hrun & Hphi & Hsame & Hk)
    end;
    exists phi, n;
    (split; [exact Hrun | ]); (split; [exact Hphi | ]).
  - apply Rleb_true in Hcmp. split; [ | split; [ | split]].
    + intros _. split; assumption.
    + intros Hlt. lra.
    + apply lateral_offset_finite.
    + intros ->. rewrite lateral_offset_finite. f_equal. ring.
  - apply Rleb_false in Hcmp. split; [ | split; [ | split]].
    + intros Hle. lra.
    + intros _. split; assumption.
    + apply lateral_offset_finite.
    + intros ->. lra.
Qed.

(** C1 (as stated) fails at the lower end of the interval.  With
    [L = R] and the nearest beam at index 900 the heading is -180
    degrees, that is [-PI], which the loops leave in place: the heading
    is not in the half-open interval. *)
Lemma heading_minus_pi_at_beam_900 :
  MPC.heading 8 (Fin 1) (Fin 1) 900 = Ok (Fin (- PI)) /\
  ~ (- PI < - PI <= PI).
Proof.
  split; [ | lra].
  unfold MPC.heading, fge; simpl fle.
  assert (Hge : Rleb 1 1 = true) by (apply Rleb_true; lra).
  rewrite Hge. simpl np_radians.
  change (540 - 900)%Z with (-360)%Z.
  replace ((-360 / 4 - 90) * PI / 180) with (- PI) by lra.
  apply normalize_angle_at_minus_pi.
Qed.

(** ** Indexing and the windows *)

Lemma py_index_outcome {A : Type} (l : list A) (i : Z) :
  (exists a : A, py_index l i = Ok a) \/ py_index l i = Raise IndexError.
Proof.
  unfold py_index.
  destruct ((_ <? 0) || (_ <=? _))%Z; auto.
  destruct (nth_error l _); eauto.
Qed.

Lemma py_index_out_of_range {A : Type} (l : list A) (i : Z) :
  (Z.of_nat (List.length l) <= i \/ i < - Z.of_nat (List.length l))%Z ->
  py_index l i = Raise IndexError.
Proof.
  intros H. unfold py_index.
  destruct (i <? 0)%Z eqn:Hneg.
  - apply Z.ltb_lt in Hneg.
    assert (Hb : ((i + Z.of_nat (List.length l) <? 0)
                  || (Z.of_nat (List.length l) <=? i + Z.of_nat (List.length l)))%Z = true).
    { apply orb_true_iff. left. apply Z.ltb_lt. lia. }
    rewrite Hb. reflexivity.
  - apply Z.ltb_ge in Hneg.
    assert (Hb : ((i <? 0) || (Z.of_nat (List.length l) <=? i))%Z = true).
    { apply orb_true_iff. right. apply Z.leb_le. lia. }
    rewrite Hb. reflexivity.
Qed.

Lemma py_index_in_range {A : Type} (l : list A) (i : Z) :
  (- Z.of_nat (List.length l) <= i < Z.of_nat (List.length l))%Z ->
  exists a : A, py_index l i = Ok a /\ In a l.
Proof.
  intros H. unfold py_index.
  set (n := Z.of_nat (List.length l)) in *.
  set (j := if (i <? 0)%Z then (i + n)%Z else i).
  assert (Hj : (0 <= j < n)%Z).
  { unfold j. destruct (i <? 0)%Z eqn:E;
      [apply Z.ltb_lt in E | apply Z.ltb_ge in E]; lia. }
  assert (Hb : ((j <? 0) || (n <=? j))%Z = false).
  { apply orb_false_iff. split; [apply Z.ltb_ge | apply Z.leb_gt]; lia. }
  rewrite Hb.
  destruct (nth_error l (Z.to_nat j)) as [a | ] eqn:E.
  - exists a. split; [reflexivity | eapply nth_error_In; eassumption].
  - apply nth_error_None in E. unfold n in Hj. lia.
Qed.

(** A negative index that is not too small reads from the end of the
    sequence. *)
Lemma py_index_wraps {A : Type} (l : list A) (i : Z) :
  (- Z.of_nat (List.length l) <= i < 0)%Z ->
  py_index l i = py_index l (i + Z.of_nat (List.length l)).
Proof.
  intros H. unfold py_index.
  assert (H1 : (i <? 0)%Z = true) by (apply Z.ltb_lt; lia).
  assert (H2 : (i + Z.of_nat (List.length l) <? 0)%Z = false) by (apply Z.ltb_ge; lia).
  cbv zeta. rewrite H1, !H2. reflexivity.
Qed.

Lemma In_py_range (a b i : Z) : In i (py_range a b) <-> (a <= i < b)%Z.
Proof.
  unfold py_range. rewrite in_map_iff. split.
  - intros (n & <- & Hn). apply in_seq in Hn. lia.
  - intros H. exists (Z.to_nat (i - a)). split; [lia | ].
    apply in_seq. lia.
Qed.

Section ForEach.

Context {A S : Type} (body : S -> A -> result S).

Hypothesis body_outcome :
  forall s a, (exists s', body s a = Ok s') \/ body s a = Raise IndexError.

Lemma for_each_outcome (l : list A) (s : S) :
  (exists s', for_each l s body = Ok s') \/ for_each l s body = Raise IndexError.
Proof.
  revert s. induction l as [ | a l IH]; intros s; simpl; eauto.
  destruct (body_outcome s a) as [[s' ->] | ->]; simpl; auto.
Qed.

Lemma for_each_raises (l : list A) (s : S) (a : A) :
  In a l -> (forall s0, body s0 a = Raise IndexError) ->
  for_each l s body = Raise IndexError.
Proof.
  intros Hin Ha. revert s.
  induction l as [ | b l IH]; intros s; simpl; [destruct Hin | ].
  destruct Hin as [-> | Hin].
  - rewrite Ha. reflexivity.
  - destruct (body_outcome s b) as [[s' ->] | ->]; simpl; auto.
Qed.

End ForEach.

Lemma fdiv_nonzero (a : pyfloat) (y : R) :
  y <> 0 -> exists q : pyfloat, fdiv a (Fin y) = Ok q.
Proof.
  intros Hy. unfold fdiv.
  assert (E : Reqb y 0 = false) by (apply Reqb_false; assumption).
  rewrite E. eauto.
Qed.

Lemma odd_not_zero (k : Z) : IZR (2 * k + 1) <> 0.
Proof. apply not_0_IZR. lia. Qed.

Section Windows.

Variables range_min range_max : R.
Variable data : LaserScan.

Lemma mpc_getRange_outcome (i : Z) :
  (exists r, MPC.getRange range_min range_max data i = Ok r) \/
  MPC.getRange range_min range_max data i = Raise IndexError.
Proof.
  unfold MPC.getRange.
  destruct (py_index_outcome (ranges data) i) as [[a ->] | ->]; simpl; eauto.
Qed.

Lemma mpc_getRange_outside (i : Z) :
  outside data i -> MPC.getRange range_min range_max data i = Raise IndexError.
Proof.
  intros H. unfold MPC.getRange. rewrite py_index_out_of_range by exact H.
  reflexivity.
Qed.

Lemma pid_getRange_outcome (i : Z) :
  (exists r, PID.getRange range_min range_max data i = Ok r) \/
  PID.getRange range_min range_max data i = Raise IndexError.
Proof.
  unfold PID.getRange.
  destruct (py_index_outcome (ranges data) i) as [[a ->] | ->]; simpl; eauto.
Qed.

Lemma pid_getRange_outside (i : Z) :
  outside data i -> PID.getRange range_min range_max data i = Raise IndexError.
Proof.
  intros H. unfold PID.getRange. rewrite py_index_out_of_range by exact H.
  reflexivity.
Qed.

Lemma getAverageRange_outcome (beam_index k : Z) :
  (exists r, MPC.getAverageRange range_min range_max data beam_index k = Ok r) \/
  MPC.getAverageRange range_min range_max data beam_index k = Raise IndexError.
Proof.
  unfold MPC.getAverageRange.
  match goal with
  | |- context [for_each ?l ?s ?f] =>
      assert (Hbody : forall s0 a, (exists s', f s0 a = Ok s') \/ f s0 a = Raise IndexError);
      [ | destruct (for_each_outcome f Hbody l s) as [[d ->] | ->] ]
  end; simpl; auto.
  - intros s a. destruct (mpc_getRange_outcome a) as [[r ->] | ->]; simpl; eauto.
  - left. apply fdiv_nonzero. apply odd_not_zero.
Qed.

Lemma getAverageRange_outside (beam_index k j : Z) :
  (beam_index - k <= j <= beam_index + k)%Z -> outside data j ->
  MPC.getAverageRange range_min range_max data beam_index k = Raise IndexError.
Proof.
  intros Hj Hout. unfold MPC.getAverageRange.
  rewrite for_each_raises with (a := j); [reflexivity | | | ].
  - intros s a. destruct (mpc_getRange_outcome a) as [[r ->] | ->]; simpl; eauto.
  - apply In_py_range. lia.
  - intros s. rewrite mpc_getRange_outside by assumption. reflexivity.
Qed.

Lemma five_beam_mean_outcome (i0 i1 i2 i3 i4 : Z) :
  (exists r, PID.five_beam_mean range_min range_max data i0 i1 i2 i3 i4 = Ok r) \/
  PID.five_beam_mean range_min range_max data i0 i1 i2 i3 i4 = Raise IndexError.
Proof.
  unfold PID.five_beam_mean.
  destruct (pid_getRange_outcome i0) as [[r0 ->] | ->]; simpl; auto.
  destruct (pid_getRange_outcome i1) as [[r1 ->] | ->]; simpl; auto.
  destruct (pid_getRange_outcome i2) as [[r2 ->] | ->]; simpl; auto.
  destruct (pid_getRange_outcome i3) as [[r3 ->] | ->]; simpl; auto.
  destruct (pid_getRange_outcome i4) as [[r4 ->] | ->]; simpl; auto.
  left. apply fdiv_nonzero. lra.
Qed.

Lemma five_beam_mean_outside (i0 i1 i2 i3 i4 : Z) :
  outside data i4 ->
  PID.five_beam_mean range_min range_max data i0 i1 i2 i3 i4 = Raise IndexError.
Proof.
  intros H. unfold PID.five_beam_mean.
  destruct (pid_getRange_outcome i0) as [[r0 ->] | ->]; simpl; auto.
  destruct (pid_getRange_outcome i1) as [[r1 ->] | ->]; simpl; auto.
  destruct (pid_getRange_outcome i2) as [[r2 ->] | ->]; simpl; auto.
  destruct (pid_getRange_outcome i3) as [[r3 ->] | ->]; simpl; auto.
  rewrite pid_getRange_outside by assumption. reflexivity.
Qed.

Lemma difference_body_outcome (beam_index : Z) (distances : list pyfloat) (i : Z) :
  (exists s',
      (a <- PID.getRange range_min range_max data (beam_index + i + 1) ;;
       b <- PID.getRange range_min range_max data (beam_index + i) ;;
       Ok (distances ++ [fsub a b])) = Ok s') \/
  (a <- PID.getRange range_min range_max data (beam_index + i + 1) ;;
   b <- PID.getRange range_min range_max data (beam_index + i) ;;
   Ok (distances ++ [fsub a b])) = Raise IndexError.
Proof.
  destruct (pid_getRange_outcome (beam_index + i + 1)) as [[a ->] | ->]; simpl; auto.
  destruct (pid_getRange_outcome (beam_index + i)) as [[b ->] | ->]; simpl; eauto.
Qed.

Lemma difference_list_outcome (beam_index length : Z) :
  (exists ds, PID.difference_list range_min range_max data beam_index length = Ok ds) \/
  PID.difference_list range_min range_max data beam_index length = Raise IndexError.
Proof.
  unfold PID.difference_list. apply for_each_outcome.
  intros s a. apply difference_body_outcome.
Qed.

Lemma difference_list_outside (beam_index length i : Z) :
  let length' := if (length mod 2 =? 1)%Z then (length + 1)%Z else length in
  (- length' / 2 <= i <= length' / 2)%Z ->
  outside data (beam_index + i + 1) \/ outside data (beam_index + i) ->
  PID.difference_list range_min range_max data beam_index length = Raise IndexError.
Proof.
  intros length' Hi Hout. unfold PID.difference_list. fold length'.
  apply for_each_raises with (a := i).
  - intros s a. apply difference_body_outcome.
  - apply In_py_range. lia.
  - intros s. destruct Hout as [Hout | Hout].
    + rewrite pid_getRange_outside by assumption. reflexivity.
    + destruct (pid_getRange_outcome (beam_index + i + 1)) as [[a ->] | ->];
        simpl; auto.
      rewrite pid_getRange_outside by assumption. reflexivity.
Qed.

End Windows.

(** ** Reading concrete scans *)

Lemma mpc_sanitize_in_range (range_min range_max x : R) :
  range_min <= x <= range_max -> MPC.sanitize range_min range_max (Fin x) = Fin x.
Proof.
  intros H. unfold MPC.sanitize, fgt; simpl.
  assert (H1 : Rltb x range_min = false) by (apply Rltb_false; lra).
  assert (H2 : Rltb range_max x = false) by (apply Rltb_false; lra).
  rewrite H1; simpl. rewrite H2. reflexivity.
Qed.

Lemma mpc_getRange_at (range_min range_max : R) (data : LaserScan) (i : Z) (x : R) :
  py_index (ranges data) i = Ok (Fin x) -> range_min <= x <= range_max ->
  MPC.getRange range_min range_max data i = Ok (Fin x).
Proof.
  intros Hi Hx. unfold MPC.getRange. rewrite Hi. simpl.
  now rewrite mpc_sanitize_in_range.
Qed.

Lemma pid_getRange_at (range_min range_max : R) (data : LaserScan) (i : Z) (x : R) :
  py_index (ranges data) i = Ok (Fin x) -> range_min <= x <= range_max ->
  PID.getRange range_min range_max data i = Ok (Fin x).
Proof.
  intros Hi Hx. rewrite <- getRange_agree.
  now apply mpc_getRange_at.
Qed.

(** Read the beams of a literal scan one after the other. *)
Ltac read_beams lem :=
  repeat (erewrite lem by (first [reflexivity | lra]); cbn [bind for_each app]).

(** ** What the callbacks do *)

Section Callbacks.

Variables range_min range_max : R.
Variable data : LaserScan.

Lemma mpc_getLateralRanges_outcome :
  (exists r l, MPC.getLateralRanges range_min range_max data
               = Ok (PyList [PyFloat r; PyFloat l])) \/
  MPC.getLateralRanges range_min range_max data = Raise IndexError.
Proof.
  unfold MPC.getLateralRanges.
  destruct (getAverageRange_outcome range_min range_max data 180 2) as [[r ->] | ->];
    simpl; auto.
  destruct (getAverageRange_outcome range_min range_max data 900 2) as [[l ->] | ->];
    simpl; eauto.
Qed.

Lemma mpc_getLateralRanges_short :
  (List.length (ranges data) < 903)%nat ->
  MPC.getLateralRanges range_min range_max data = Raise IndexError.
Proof.
  intros Hlen. unfold MPC.getLateralRanges.
  destruct (getAverageRange_outcome range_min range_max data 180 2) as [[r ->] | ->];
    simpl; auto.
  rewrite getAverageRange_outside with (j := 902%Z); [reflexivity | lia | ].
  left. lia.
Qed.

Lemma mpc_callback_outcome (fuel : nat) (st : option Z) (now1 now2 : Z) :
  snd (MPC.callback range_min range_max fuel st now1 now2 data) = Raise IndexError \/
  snd (MPC.callback range_min range_max fuel st now1 now2 data) = Raise TypeError.
Proof.
  unfold MPC.callback; simpl snd.
  destruct mpc_getLateralRanges_outcome as [(r & l & ->) | ->]; simpl; auto.
Qed.

Lemma pid_getLateralRanges_outcome :
  PID.getLateralRanges range_min range_max data = Ok PyNone \/
  PID.getLateralRanges range_min range_max data = Raise IndexError.
Proof.
  unfold PID.getLateralRanges.
  destruct (five_beam_mean_outcome range_min range_max data 178 179 180 181 182)
    as [[r ->] | ->]; simpl; auto.
  destruct (five_beam_mean_outcome range_min range_max data 538 539 540 541 542)
    as [[f ->] | ->]; simpl; auto.
  destruct (five_beam_mean_outcome range_min range_max data 898 899 900 901 902)
    as [[l ->] | ->]; simpl; auto.
Qed.

Lemma pid_getLateralRanges_short :
  (List.length (ranges data) < 903)%nat ->
  PID.getLateralRanges range_min range_max data = Raise IndexError.
Proof.
  intros Hlen. unfold PID.getLateralRanges.
  destruct (five_beam_mean_outcome range_min range_max data 178 179 180 181 182)
    as [[r ->] | ->]; simpl; auto.
  destruct (five_beam_mean_outcome range_min range_max data 538 539 540 541 542)
    as [[f ->] | ->]; simpl; auto.
  rewrite five_beam_mean_outside; [reflexivity | ].
  left. lia.
Qed.

Lemma pid_getRange_inside (i : Z) :
  (0 <= i < Z.of_nat (List.length (ranges data)))%Z ->
  exists r, PID.getRange range_min range_max data i = Ok r.
Proof.
  intros H. unfold PID.getRange.
  destruct (py_index_in_range (ranges data) i) as (a & -> & _); [lia | ].
  simpl. eauto.
Qed.

Lemma five_beam_mean_inside (i0 i1 i2 i3 i4 : Z) :
  (0 <= i0 < Z.of_nat (List.length (ranges data)))%Z ->
  (0 <= i1 < Z.of_nat (List.length (ranges data)))%Z ->
  (0 <= i2 < Z.of_nat (List.length (ranges data)))%Z ->
  (0 <= i3 < Z.of_nat (List.length (ranges data)))%Z ->
  (0 <= i4 < Z.of_nat (List.length (ranges data)))%Z ->
  exists r, PID.five_beam_mean range_min range_max data i0 i1 i2 i3 i4 = Ok r.
Proof.
  intros H0 H1 H2 H3 H4. unfold PID.five_beam_mean.
  destruct (pid_getRange_inside i0 H0) as [r0 ->].
  destruct (pid_getRange_inside i1 H1) as [r1 ->].
  destruct (pid_getRange_inside i2 H2) as [r2 ->].
  destruct (pid_getRange_inside i3 H3) as [r3 ->].
  destruct (pid_getRange_inside i4 H4) as [r4 ->].
  simpl. apply fdiv_nonzero. lra.
Qed.

Lemma pid_getLateralRanges_full :
  (903 <= List.length (ranges data))%nat ->
  PID.getLateralRanges range_min range_max data = Ok PyNone.
Proof.
  intros Hlen. unfold PID.getLateralRanges.
  destruct (five_beam_mean_inside 178 179 180 181 182) as [r ->]; try lia.
  destruct (five_beam_mean_inside 538 539 540 541 542) as [f ->]; try lia.
  destruct (five_beam_mean_inside 898 899 900 901 902) as [l ->]; try lia.
  reflexivity.
Qed.

End Callbacks.

(** C2 (code at fault).  The PID callback publishes nothing, whatever
    the scan: [getLateralRanges] has no [return], so on a scan that
    covers the three windows it yields [None], and line 142 then calls
    that value, which raises [TypeError]; on a shorter scan the reads
    raise [IndexError].  The steering error of lines 160-179 is never
    computed.  The scan of 1081 beams reading 10.0 is one instance. *)
Theorem pid_callback_never_publishes (range_min range_max : R) (fuel : nat) :
  (forall data : LaserScan,
      (PID.callback range_min range_max fuel data = Raise IndexError \/
       PID.callback range_min range_max fuel data = Raise TypeError) /\
      published (PID.callback range_min range_max fuel data) = None) /\
  (forall data : LaserScan,
      (903 <= List.length (ranges data))%nat ->
      PID.getLateralRanges range_min range_max data = Ok PyNone /\
      PID.callback range_min range_max fuel data = Raise TypeError) /\
  PID.callback range_min range_max fuel {| ranges := repeat (Fin 10) 1081 |}
    = Raise TypeError.
Proof.
  assert (Hfull : forall data : LaserScan,
             (903 <= List.length (ranges data))%nat ->
             PID.getLateralRanges range_min range_max data = Ok PyNone /\
             PID.callback range_min range_max fuel data = Raise TypeError).
  { intros data Hlen.
    pose proof (pid_getLateralRanges_full range_min range_max data Hlen) as H.
    split; [exact H | ]. unfold PID.callback. rewrite H. reflexivity. }
  split; [ | split; [exact Hfull | ]].
  - intros data. unfold PID.callback.
    destruct (pid_getLateralRanges_outcome range_min range_max data) as [-> | ->];
      simpl; auto.
  - apply Hfull. cbn [ranges]. rewrite repeat_length. lia.
Qed.

(** C6 (code at fault).  [getRangeSequenceSign] returns nothing: once the
    differences are collected in [distances], line 123 sums [distance],
    a name bound nowhere, and raises [NameError] (or a read outside the
    scan has raised [IndexError] before).  On the rising scan
    [1, 2, 3, 4] with centre 1 and length 2 the three differences are 1
    each, yet the call raises. *)
Theorem getRangeSequenceSign_raises :
  (forall (range_min range_max : R) (data : LaserScan) (beam_index length : Z),
      PID.getRangeSequenceSign range_min range_max data beam_index length
        = Raise IndexError \/
      PID.getRangeSequenceSign range_min range_max data beam_index length
        = Raise NameError) /\
  PID.difference_list 0 30 {| ranges := [Fin 1; Fin 2; Fin 3; Fin 4] |} 1 2
    = Ok [Fin 1; Fin 1; Fin 1] /\
  PID.getRangeSequenceSign 0 30 {| ranges := [Fin 1; Fin 2; Fin 3; Fin 4] |} 1 2
    = Raise NameError.
Proof.
  assert (Hd : PID.difference_list 0 30 {| ranges := [Fin 1; Fin 2; Fin 3; Fin 4] |} 1 2
               = Ok [Fin 1; Fin 1; Fin 1]).
  { unfold PID.difference_list.
    change (py_range _ _) with [-1; 0; 1]%Z.
    cbn [bind for_each app].
    read_beams pid_getRange_at.
    unfold fsub; simpl. repeat f_equal; lra. }
  split; [ | split; [exact Hd | ]].
  - intros range_min range_max data beam_index length.
    unfold PID.getRangeSequenceSign.
    destruct (difference_list_outcome range_min range_max data beam_index length)
      as [[ds ->] | ->]; simpl; auto.
  - unfold PID.getRangeSequenceSign. rewrite Hd. reflexivity.
Qed.

(** C7 (as amended).  A read at an index [j >= len] or [j < -len] raises
    [IndexError], and so does the averaging window, or the trend window,
    that contains such an index; a negative index down to [-len] is not
    an error but reads beam [j + len].  Both callbacks read beams up to
    index 902: on a scan of fewer than 903 beams (the empty scan is one)
    they raise [IndexError] and publish nothing, and the MPC callback
    still leaves its timestamp set for the run on the next scan. *)
Theorem window_outside_scan (range_min range_max : R) (data : LaserScan) :
  (forall beam_index k j : Z,
      (beam_index - k <= j <= beam_index + k)%Z -> outside data j ->
      MPC.getAverageRange range_min range_max data beam_index k = Raise IndexError) /\
  (forall beam_index length i : Z,
      (- (if (length mod 2 =? 1)%Z then length + 1 else length) / 2 <= i
       <= (if (length mod 2 =? 1)%Z then length + 1 else length) / 2)%Z ->
      outside data (beam_index + i + 1) \/ outside data (beam_index + i) ->
      PID.getRangeSequenceSign range_min range_max data beam_index length
        = Raise IndexError) /\
  (forall j : Z,
      (- Z.of_nat (List.length (ranges data)) <= j < 0)%Z ->
      MPC.getRange range_min range_max data j =
      MPC.getRange range_min range_max data (j + Z.of_nat (List.length (ranges data)))) /\
  ((List.length (ranges data) < 903)%nat ->
   forall (fuel : nat) (st : option Z) (now1 now2 : Z),
     MPC.callback range_min range_max fuel st now1 now2 data
       = (Some now2, Raise IndexError) /\
     PID.callback range_min range_max fuel data = Raise IndexError /\
     published (snd (MPC.callback range_min range_max fuel st now1 now2 data)) = None /\
     published (PID.callback range_min range_max fuel data) = None).
Proof.
  split; [ | split; [ | split]].
  - intros beam_index k j Hj Hout.
    eapply getAverageRange_outside; eassumption.
  - intros beam_index length i Hi Hout. unfold PID.getRangeSequenceSign.
    rewrite (difference_list_outside range_min range_max data beam_index length i Hi Hout).
    reflexivity.
  - intros j Hj. unfold MPC.getRange. rewrite py_index_wraps by assumption.
    reflexivity.
  - intros Hlen fuel st now1 now2.
    assert (Hm : MPC.callback range_min range_max fuel st now1 now2 data
                 = (Some now2, Raise IndexError)).
    { unfold MPC.callback. rewrite mpc_getLateralRanges_short by assumption.
      reflexivity. }
    assert (Hp : PID.callback range_min range_max fuel data = Raise IndexError).
    { unfold PID.callback. rewrite pid_getLateralRanges_short by assumption.
      reflexivity. }
    rewrite Hm, Hp. auto.
Qed.

(** The empty scan, first run. *)
Lemma window_outside_scan_witness :
  MPC.callback 0 30 8 None 0 5 {| ranges := [] |} = (Some 5%Z, Raise IndexError).
Proof.
  assert (Hlen : (List.length (ranges {| ranges := [] |}) < 903)%nat) by (simpl; lia).
  exact (proj1 (proj2 (proj2 (proj2 (window_outside_scan 0 30 {| ranges := [] |})))
                  Hlen 8%nat None 0%Z 5%Z)).
Defined.

(** C7 (as stated) fails below index 0.  On a ten-beam scan the window
    of half-width 2 around beam 1 starts at index -1, outside the scan's
    indices 0..9, yet [getAverageRange] does not fail: it reads the last
    beam for index -1 and returns the mean (6 + 1 + 1 + 1 + 1) / 5. *)
Lemma getAverageRange_wraps_around :
  ~ (0 <= 1 - 2)%Z /\
  MPC.getAverageRange 0 30
    {| ranges := [Fin 1; Fin 1; Fin 1; Fin 1; Fin 1;
                  Fin 1; Fin 1; Fin 1; Fin 1; Fin 6] |} 1 2
    = Ok (Fin 2).
Proof.
  split; [lia | ].
  unfold MPC.getAverageRange.
  change (py_range _ _) with [-1; 0; 1; 2; 3]%Z.
  cbn [bind for_each app].
  read_beams mpc_getRange_at.
  unfold fdiv, float_of_int. change (2 * 2 + 1)%Z with 5%Z.
  assert (E : Reqb 5 0 = false) by (apply Reqb_false; lra).
  rewrite E. simpl. repeat f_equal. lra.
Qed.

(** The clock in the MPC callback.  A run stores the reading of line 135
    as the new timestamp, and its sampling time is 0.01 on the first run
    and the reading of line 131 minus the stored timestamp afterwards,
    so that after the first run two runs compute the same sampling time
    exactly when they read the same clock value. *)
Theorem callback_reads_the_clock (range_min range_max : R) (fuel : nat)
        (st : option Z) (now1 now2 : Z) (data : LaserScan) :
  fst (MPC.callback range_min range_max fuel st now1 now2 data) = Some now2 /\
  MPC.sampling_time None now1 = Fin 0.01 /\
  (forall t : Z, MPC.sampling_time (Some t) now1 = Fin (IZR (now1 - t) / 1000000000)) /\
  (forall t n n' : Z,
      MPC.sampling_time (Some t) n = MPC.sampling_time (Some t) n' <-> n = n') /\
  (forall now1' now2' : Z,
      now1' = now1 -> now2' = now2 ->
      MPC.callback range_min range_max fuel st now1' now2' data =
      MPC.callback range_min range_max fuel st now1 now2 data).
Proof.
  split; [reflexivity | ]. split; [reflexivity | ]. split; [reflexivity | ].
  split.
  - intros t n n'. split.
    + unfold MPC.sampling_time. intros H. inversion H as [Heq].
      assert (Hz : IZR (n - t) = IZR (n' - t)) by lra.
      apply eq_IZR in Hz. lia.
    + intros ->. reflexivity.
  - intros now1' now2' -> ->. reflexivity.
Qed.

(** Two runs on the same scan with the same stored timestamp, one second
    apart, compute different sampling times (1 s and 2 s) and leave
    different timestamps behind. *)
Lemma callback_depends_on_the_clock :
  MPC.sampling_time (Some 0%Z) 1000000000 = Fin 1 /\
  MPC.sampling_time (Some 0%Z) 2000000000 = Fin 2 /\
  MPC.sampling_time (Some 0%Z) 1000000000 <> MPC.sampling_time (Some 0%Z) 2000000000 /\
  fst (MPC.callback 0 30 8 (Some 0%Z) 1000000000 1000000000 {| ranges := [] |}) <>
  fst (MPC.callback 0 30 8 (Some 0%Z) 2000000000 2000000000 {| ranges := [] |}).
Proof.
  assert (H1 : MPC.sampling_time (Some 0%Z) 1000000000 = Fin 1).
  { unfold MPC.sampling_time. change (1000000000 - 0)%Z with 1000000000%Z.
    f_equal. lra. }
  assert (H2 : MPC.sampling_time (Some 0%Z) 2000000000 = Fin 2).
  { unfold MPC.sampling_time. change (2000000000 - 0)%Z with 2000000000%Z.
    f_equal. lra. }
  repeat split; try assumption.
  - rewrite H1, H2. intros H. inversion H. lra.
  - simpl. intros H. inversion H.
Qed.

(** ** The steering error of the PID variant *)

(** Lines 160-179 on finite ranges with [L + R] and [F] away from zero:
    the two arguments, the error [-arctan(..) + arctan(..)], which lies
    strictly between [-PI] and [PI], and the first term at [L = R]. *)
Theorem steering_error_formula (R_ F_ L_ : R) (trend : pyfloat) :
  L_ + R_ <> 0 -> F_ <> 0 ->
  PID.first_tan_arg (Fin L_) (Fin R_) = Ok (Fin ((L_ - R_) / (2 * 5 * (L_ + R_)))) /\
  PID.second_tan_arg trend (Fin R_) (Fin F_) (Fin L_) =
    Ok (Fin (if fgt trend (Fin 0) then - R_ / F_ else L_ / F_)) /\
  (forall t1 t2 : R,
      PID.angular_error (Fin t1) (Fin t2) = Fin (- atan t1 + atan t2) /\
      - PI < - atan t1 + atan t2 < PI) /\
  (L_ = R_ -> atan ((L_ - R_) / (2 * 5 * (L_ + R_))) = 0).
Proof.
  intros Hs Hf. split; [ | split; [ | split]].
  - unfold PID.first_tan_arg, fdiv, float_of_int, PID.CCp; simpl.
    assert (E : Reqb (10 * (L_ + R_)) 0 = false) by (apply Reqb_false; lra).
    rewrite E.
    replace ((L_ - R_) / (2 * 5 * (L_ + R_)))
      with ((L_ + - R_) / (10 * (L_ + R_))) by (field; lra).
    reflexivity.
  - unfold PID.second_tan_arg.
    assert (E : Reqb F_ 0 = false) by (apply Reqb_false; assumption).
    destruct (fgt trend (Fin 0)); unfold fdiv; simpl; rewrite E; reflexivity.
  - intros t1 t2. split; [reflexivity | ].
    pose proof (atan_bound t1). pose proof (atan_bound t2). lra.
  - intros ->. replace ((R_ - R_) / (2 * 5 * (R_ + R_))) with 0 by (field; lra).
    apply atan_0.
Qed.

(** The ranges of the specification's example: [R = L = 5], [F = 10],
    trend positive. *)
Lemma steering_error_formula_witness :
  PID.first_tan_arg (Fin 5) (Fin 5) = Ok (Fin ((5 - 5) / (2 * 5 * (5 + 5)))) /\
  PID.second_tan_arg (Fin 1) (Fin 5) (Fin 10) (Fin 5) =
    Ok (Fin (if fgt (Fin 1) (Fin 0) then - 5 / 10 else 5 / 10)).
Proof.
  assert (H1 : 5 + 5 <> 0) by lra.
  assert (H2 : 10 <> 0) by lra.
  pose proof (steering_error_formula 5 10 5 (Fin 1) H1 H2) as H.
  exact (conj (proj1 H) (proj1 (proj2 H))).
Defined.

(** With both lateral ranges at zero, or the forward range at zero, the
    divisions of lines 161 and 169-171 raise. *)
Lemma steering_error_zero_division :
  PID.first_tan_arg (Fin 0) (Fin 0) = Raise ZeroDivisionError /\
  (forall trend R_ L_ : pyfloat,
      PID.second_tan_arg trend R_ (Fin 0) L_ = Raise ZeroDivisionError).
Proof.
  split.
  - unfold PID.first_tan_arg, fdiv, float_of_int, PID.CCp; simpl.
    assert (E : Reqb (10 * (0 + 0)) 0 = true) by (apply Reqb_true; lra).
    rewrite E. reflexivity.
  - intros trend R_ L_. unfold PID.second_tan_arg, fdiv.
    assert (E : Reqb 0 0 = true) by (apply Reqb_true; reflexivity).
    destruct (fgt trend (Fin 0)); rewrite E; reflexivity.
Qed.

(** The overflow check of the PID callback (lines 182-185) never gets
    past the test of its second loop. *)
Lemma pid_normalize_angle_raises (x : R) :
  exists n : nat,
    forall fuel, (n <= fuel)%nat -> PID.normalize_angle fuel (Fin x) = Raise NameError.
Proof.
  pose proof PI_RGT_0 as Hpi.
  destruct (nat_above ((x - PI) / (2 * PI))) as [n Hn].
  assert (Hx : x <= PI + 2 * PI * INR n).
  { apply Rmult_le_compat_r with (r := 2 * PI) in Hn; [ | lra].
    replace ((x - PI) / (2 * PI) * (2 * PI)) with (x - PI) in Hn by (field; lra).
    lra. }
  destruct (first_loop n x Hx) as (y & Hrun & _).
  exists n. intros fuel Hf. unfold PID.normalize_angle.
  rewrite Hrun by assumption. reflexivity.
Qed.

(** ** Sanitized and averaged ranges are finite *)

Lemma sanitize_finite (range_min range_max : R) (v : pyfloat) :
  exists x : R, MPC.sanitize range_min range_max v = Fin x.
Proof.
  unfold MPC.sanitize, fgt.
  destruct v as [ | | | x]; simpl.
  - destruct (Rltb range_max 0); eauto.
  - eauto.
  - destruct (Rltb range_max 0); eauto.
  - destruct (Rltb x range_min); simpl.
    + destruct (Rltb range_max 0); eauto.
    + destruct (Rltb range_max x); eauto.
Qed.

Lemma getRange_finite (range_min range_max : R) (data : LaserScan) (i : Z) (r : pyfloat) :
  MPC.getRange range_min range_max data i = Ok r -> exists x : R, r = Fin x.
Proof.
  unfold MPC.getRange.
  destruct (py_index (ranges data) i) as [v | e | ]; simpl; try discriminate.
  intros H. inversion H; subst.
  destruct (sanitize_finite range_min range_max v) as [x ->]. eauto.
Qed.

Lemma sum_of_finite (range_min range_max : R) (data : LaserScan) (l : list Z) :
  forall (acc : R) (d : pyfloat),
    for_each l (Fin acc)
             (fun dist i => r <- MPC.getRange range_min range_max data i ;;
                            Ok (fadd dist r)) = Ok d ->
    exists x : R, d = Fin x.
Proof.
  induction l as [ | i l IH]; intros acc d; simpl.
  - intros H. inversion H. eauto.
  - destruct (MPC.getRange range_min range_max data i) as [r | e | ] eqn:Hr;
      simpl; try discriminate.
    destruct (getRange_finite _ _ _ _ _ Hr) as [x ->]. simpl. apply IH.
Qed.

Lemma getAverageRange_finite (range_min range_max : R) (data : LaserScan)
      (beam_index k : Z) (r : pyfloat) :
  MPC.getAverageRange range_min range_max data beam_index k = Ok r ->
  exists x : R, r = Fin x.
Proof.
  unfold MPC.getAverageRange.
  match goal with
  | |- context [for_each ?l ?s ?f] => destruct (for_each l s f) as [d | e | ] eqn:Hd
  end; cbn [bind]; try discriminate.
  destruct (sum_of_finite _ _ _ _ _ _ Hd) as [x ->].
  unfold fdiv, float_of_int.
  assert (E : Reqb (IZR (2 * k + 1)) 0 = false)
    by (apply Reqb_false, odd_not_zero).
  rewrite E. intros H. inversion H. eauto.
Qed.

(** ** The differences of the trend window *)

Section Trend.

Variables range_min range_max : R.
Variable data : LaserScan.

Let inside (j : Z) : Prop := (0 <= j < Z.of_nat (List.length (ranges data)))%Z.

(** The sanitized range of every beam of the scan, as a number. *)
Lemma pid_getRange_value :
  exists g : Z -> R,
    forall j, inside j -> PID.getRange range_min range_max data j = Ok (Fin (g j)).
Proof.
  exists (fun j => match PID.getRange range_min range_max data j with
                   | Ok (Fin x) => x
                   | _ => 0
                   end).
  intros j Hj.
  destruct (pid_getRange_inside range_min range_max data j Hj) as [r Hr].
  rewrite Hr.
  rewrite <- getRange_agree in Hr.
  destruct (getRange_finite _ _ _ _ _ Hr) as [x ->]. reflexivity.
Qed.

Lemma difference_loop (g : Z -> R) (beam_index : Z) (l : list Z) :
  (forall j, inside j -> PID.getRange range_min range_max data j = Ok (Fin (g j))) ->
  (forall i, In i l -> inside (beam_index + i) /\ inside (beam_index + i + 1)) ->
  forall distances : list pyfloat,
    for_each l distances
             (fun distances i =>
                a <- PID.getRange range_min range_max data (beam_index + i + 1) ;;
                b <- PID.getRange range_min range_max data (beam_index + i) ;;
                Ok (distances ++ [fsub a b]))
    = Ok (distances ++
          map (fun i : Z => Fin (g (beam_index + i + 1)%Z + - g (beam_index + i)%Z)) l).
Proof.
  intros Hg. induction l as [ | i l IH]; intros Hin distances; simpl.
  - now rewrite app_nil_r.
  - destruct (Hin i (or_introl eq_refl)) as [H0 H1].
    rewrite (Hg _ H1), (Hg _ H0). simpl.
    rewrite IH by (intros j Hj; apply Hin; right; exact Hj).
    rewrite <- app_assoc. reflexivity.
Qed.

Lemma sum_telescopes (g : Z -> R) (c a : Z) (n : nat) :
  forall (s : nat) (acc : R),
    fold_left fadd
      (map (fun i : Z => Fin (g (c + i + 1)%Z + - g (c + i)%Z))
           (map (fun k => (a + Z.of_nat k)%Z) (seq s n)))
      (Fin acc)
    = Fin (acc + g (c + (a + Z.of_nat (s + n)))%Z - g (c + (a + Z.of_nat s))%Z).
Proof.
  induction n as [ | n IH]; intros s acc; simpl.
  - rewrite Nat.add_0_r. f_equal. ring.
  - rewrite IH.
    replace (s + S n)%nat with (S s + n)%nat by lia.
    replace (c + (a + Z.of_nat s) + 1)%Z with (c + (a + Z.of_nat (S s)))%Z by lia.
    f_equal. ring.
Qed.

(** The differences collected by lines 118-121 over a window inside the
    scan sum to the sanitized range just past the upper end of the window
    minus the one at its lower end; the sum is positive exactly when the
    former is the larger. *)
Theorem difference_list_telescopes (beam_index length : Z) :
  (- (if (length mod 2 =? 1)%Z then length + 1 else length) / 2
   <= (if (length mod 2 =? 1)%Z then length + 1 else length) / 2 + 1)%Z ->
  (0 <= beam_index
        + - (if (length mod 2 =? 1)%Z then length + 1 else length) / 2)%Z ->
  (beam_index + (if (length mod 2 =? 1)%Z then length + 1 else length) / 2 + 1
   < Z.of_nat (List.length (ranges data)))%Z ->
  exists (first last : R) (ds : list pyfloat),
    PID.getRange range_min range_max data
      (beam_index + - (if (length mod 2 =? 1)%Z then length + 1 else length) / 2)
      = Ok (Fin first) /\
    PID.getRange range_min range_max data
      (beam_index + (if (length mod 2 =? 1)%Z then length + 1 else length) / 2 + 1)
      = Ok (Fin last) /\
    PID.difference_list range_min range_max data beam_index length = Ok ds /\
    py_sum ds = Fin (last - first) /\
    (fgt (py_sum ds) (Fin 0) = true <-> first < last).
Proof.
  unfold PID.difference_list. cbv zeta.
  set (L' := if (length mod 2 =? 1)%Z then (length + 1)%Z else length).
  intros Hne Hlo Hhi.
  destruct pid_getRange_value as [g Hg].
  assert (Hsum :
    py_sum (map (fun i : Z => Fin (g (beam_index + i + 1)%Z + - g (beam_index + i)%Z))
                (py_range (- L' / 2) (L' / 2 + 1)))
    = Fin (g (beam_index + L' / 2 + 1)%Z - g (beam_index + - L' / 2)%Z)).
  { unfold py_sum, py_range. rewrite sum_telescopes.
    rewrite Nat.add_0_l, Z2Nat.id by lia. simpl Z.of_nat.
    replace (beam_index + (- L' / 2 + (L' / 2 + 1 - - L' / 2)))%Z
      with (beam_index + L' / 2 + 1)%Z by lia.
    replace (beam_index + (- L' / 2 + 0))%Z with (beam_index + - L' / 2)%Z by lia.
    f_equal. ring. }
  exists (g (beam_index + - L' / 2)%Z), (g (beam_index + L' / 2 + 1)%Z).
  exists (map (fun i : Z => Fin (g (beam_index + i + 1)%Z + - g (beam_index + i)%Z))
              (py_range (- L' / 2) (L' / 2 + 1))).
  split; [ | split; [ | split; [ | split]]].
  - apply Hg. unfold inside. lia.
  - apply Hg. unfold inside. lia.
  - rewrite (difference_loop g beam_index _ Hg).
    + reflexivity.
    + intros i Hi. apply In_py_range in Hi. unfold inside. lia.
  - exact Hsum.
  - rewrite Hsum. unfold fgt; simpl. rewrite Rltb_true. lra.
Qed.

End Trend.

(** The rising four-beam scan, centre 1, length 2. *)
Lemma difference_list_telescopes_witness :
  exists (first last : R) (ds : list pyfloat),
    PID.getRange 0 30 {| ranges := [Fin 1; Fin 2; Fin 3; Fin 4] |} 0 = Ok (Fin first) /\
    PID.getRange 0 30 {| ranges := [Fin 1; Fin 2; Fin 3; Fin 4] |} 3 = Ok (Fin last) /\
    PID.difference_list 0 30 {| ranges := [Fin 1; Fin 2; Fin 3; Fin 4] |} 1 2 = Ok ds /\
    py_sum ds = Fin (last - first) /\
    (fgt (py_sum ds) (Fin 0) = true <-> first < last).
Proof.
  assert (H1 : (- (if (2 mod 2 =? 1)%Z then 2 + 1 else 2) / 2
                <= (if (2 mod 2 =? 1)%Z then 2 + 1 else 2) / 2 + 1)%Z)
    by (vm_compute; discriminate).
  assert (H2 : (0 <= 1 + - (if (2 mod 2 =? 1)%Z then 2 + 1 else 2) / 2)%Z)
    by (vm_compute; discriminate).
  assert (H3 : (1 + (if (2 mod 2 =? 1)%Z then 2 + 1 else 2) / 2 + 1
                < Z.of_nat (List.length
                              (ranges {| ranges := [Fin 1; Fin 2; Fin 3; Fin 4] |})))%Z)
    by (vm_compute; reflexivity).
  exact (difference_list_telescopes 0 30
           {| ranges := [Fin 1; Fin 2; Fin 3; Fin 4] |} 1 2 H1 H2 H3).
Defined.

(** ** The MPC callback as a whole *)

Lemma for_each_ok {A S : Type} (body : S -> A -> result S) (l : list A) :
  (forall s a, In a l -> exists s', body s a = Ok s') ->
  forall s, exists s', for_each l s body = Ok s'.
Proof.
  induction l as [ | a l IH]; intros Hb s; simpl; eauto.
  destruct (Hb s a (or_introl eq_refl)) as [s' ->]. simpl.
  apply IH. intros s0 b Hin. apply Hb. right; exact Hin.
Qed.

Lemma getAverageRange_inside (range_min range_max : R) (data : LaserScan)
      (beam_index k : Z) :
  (0 <= beam_index - k)%Z ->
  (beam_index + k < Z.of_nat (List.length (ranges data)))%Z ->
  exists x : R,
    MPC.getAverageRange range_min range_max data beam_index k = Ok (Fin x).
Proof.
  intros Hlo Hhi.
  destruct (getAverageRange_outcome range_min range_max data beam_index k)
    as [[r Hr] | Hr].
  - destruct (getAverageRange_finite _ _ _ _ _ _ Hr) as [x ->]. eauto.
  - exfalso. revert Hr. unfold MPC.getAverageRange.
    match goal with
    | |- context [for_each ?l ?s ?f] =>
        assert (Hb : forall s0 a, In a l -> exists s', f s0 a = Ok s');
        [ | destruct (for_each_ok f l Hb s) as [d ->] ]
    end.
    + intros s a Hin. apply In_py_range in Hin. unfold MPC.getRange.
      destruct (py_index_in_range (ranges data) a) as (v & -> & _); [lia | ].
      simpl. eauto.
    + cbn [bind].
      destruct (fdiv_nonzero d (IZR (2 * k + 1)) (odd_not_zero k)) as [q Hq].
      unfold float_of_int. rewrite Hq. discriminate.
Qed.

(** The MPC callback publishes nothing either.  On a scan that covers
    both windows [getLateralRanges] returns its two-element list, and
    line 140, [ranges_list(0)], calls that list: [TypeError].  On a
    shorter scan the reads raise [IndexError].  In both cases the
    timestamp has been overwritten by then. *)
Theorem mpc_callback_never_publishes (range_min range_max : R) (fuel : nat)
        (st : option Z) (now1 now2 : Z) :
  (forall data : LaserScan,
      (MPC.callback range_min range_max fuel st now1 now2 data
         = (Some now2, Raise IndexError) \/
       MPC.callback range_min range_max fuel st now1 now2 data
         = (Some now2, Raise TypeError)) /\
      published (snd (MPC.callback range_min range_max fuel st now1 now2 data)) = None) /\
  (forall data : LaserScan,
      (903 <= List.length (ranges data))%nat ->
      (exists r l : R,
          MPC.getLateralRanges range_min range_max data
          = Ok (PyList [PyFloat (Fin r); PyFloat (Fin l)])) /\
      MPC.callback range_min range_max fuel st now1 now2 data
        = (Some now2, Raise TypeError)) /\
  MPC.callback range_min range_max fuel st now1 now2
               {| ranges := repeat (Fin 10) 1081 |}
    = (Some now2, Raise TypeError).
Proof.
  assert (Hfull : forall data : LaserScan,
             (903 <= List.length (ranges data))%nat ->
             (exists r l : R,
                 MPC.getLateralRanges range_min range_max data
                 = Ok (PyList [PyFloat (Fin r); PyFloat (Fin l)])) /\
             MPC.callback range_min range_max fuel st now1 now2 data
             = (Some now2, Raise TypeError)).
  { intros data Hlen.
    destruct (getAverageRange_inside range_min range_max data 180 2) as [r Hr];
      try lia.
    destruct (getAverageRange_inside range_min range_max data 900 2) as [l Hl];
      try lia.
    assert (H : MPC.getLateralRanges range_min range_max data
                = Ok (PyList [PyFloat (Fin r); PyFloat (Fin l)])).
    { unfold MPC.getLateralRanges. rewrite Hr, Hl. reflexivity. }
    split; [eauto | ].
    unfold MPC.callback. rewrite H. reflexivity. }
  split; [ | split; [exact Hfull | ]].
  - intros data. unfold MPC.callback.
    destruct (mpc_getLateralRanges_outcome range_min range_max data)
      as [(r & l & ->) | ->]; simpl; auto.
  - apply Hfull. cbn [ranges]. rewrite repeat_length. lia.
Qed.

(** ** The worked examples of the specification *)

(** Pose: [R = L = 10] and the nearest beam straight ahead give the
    heading [-PI/2] (the [L >= R] branch) and the offset 0. *)
Example pose_example :
  MPC.heading 8 (Fin 10) (Fin 10) 540 = Ok (Fin (- (PI / 2))) /\
  MPC.lateral_offset (Fin 10) (Fin 10) (Fin (- (PI / 2))) = Fin 0.
Proof.
  pose proof PI_RGT_0 as Hpi. split.
  - unfold MPC.heading, fge; simpl fle.
    assert (Hge : Rleb 10 10 = true) by (apply Rleb_true; lra).
    rewrite Hge. simpl np_radians.
    change (540 - 540)%Z with 0%Z.
    replace ((0 / 4 - 90) * PI / 180) with (- (PI / 2)) by lra.
    apply normalize_angle_inside. lra.
  - rewrite lateral_offset_finite. f_equal; try ring.
Qed.

(** Steering error: [R = L = 5], [F = 10] and a positive trend give
    [0 + arctan(-0.5)]. *)
Example steering_error_example :
  PID.first_tan_arg (Fin 5) (Fin 5) = Ok (Fin 0) /\
  PID.second_tan_arg (Fin 1) (Fin 5) (Fin 10) (Fin 5) = Ok (Fin (- 0.5)) /\
  PID.angular_error (Fin 0) (Fin (- 0.5)) = Fin (- atan 0.5).
Proof.
  split; [ | split].
  - unfold PID.first_tan_arg, fdiv, float_of_int, PID.CCp; simpl.
    assert (E : Reqb (10 * (5 + 5)) 0 = false) by (apply Reqb_false; lra).
    rewrite E. do 2 f_equal; try lra.
  - unfold PID.second_tan_arg, fgt; simpl.
    assert (E1 : Rltb 0 1 = true) by (apply Rltb_true; lra).
    assert (E2 : Reqb 10 0 = false) by (apply Reqb_false; lra).
    rewrite E1. unfold fdiv; simpl. rewrite E2. do 2 f_equal; try lra.
  - unfold PID.angular_error; simpl. f_equal.
    rewrite atan_0. replace (-0.5) with (- (0.5)) by lra. rewrite atan_opp. lra.
Qed.

(** ** The averaged ranges *)

(** [getAverageRange] either raises [IndexError] or returns a finite
    number: the sanitized beams are finite, and the divisor [2k + 1] is
    odd, hence not zero. *)
Theorem getAverageRange_returns_number (range_min range_max : R)
        (data : LaserScan) (beam_index k : Z) :
  (exists x : R,
      MPC.getAverageRange range_min range_max data beam_index k = Ok (Fin x)) \/
  MPC.getAverageRange range_min range_max data beam_index k = Raise IndexError.
Proof.
  destruct (getAverageRange_outcome range_min range_max data beam_index k)
    as [[r Hr] | Hr]; [left | right; exact Hr].
  destruct (getAverageRange_finite _ _ _ _ _ _ Hr) as [x ->]. eauto.
Qed.

(** * Further properties of the code *)

(** ** Averaging windows *)

Lemma fadd_zero_l (r : pyfloat) : fadd (Fin 0) r = r.
Proof. destruct r; simpl; try reflexivity. f_equal. ring. Qed.

Lemma py_range_length (a b : Z) : List.length (py_range a b) = Z.to_nat (b - a).
Proof. unfold py_range. now rewrite length_map, length_seq. Qed.

Lemma py_range_five (c : Z) :
  py_range (c - 2) (c + 2 + 1) = [c - 2; c - 1; c; c + 1; c + 2]%Z.
Proof.
  unfold py_range.
  replace (c + 2 + 1 - (c - 2))%Z with 5%Z by lia.
  change (Z.to_nat 5) with 5%nat. cbn [seq map].
  repeat (f_equal; try lia).
Qed.

Lemma py_range_one (c : Z) : py_range (c - 0) (c + 0 + 1) = [c].
Proof.
  unfold py_range.
  replace (c + 0 + 1 - (c - 0))%Z with 1%Z by lia.
  change (Z.to_nat 1) with 1%nat. cbn [seq map].
  f_equal. lia.
Qed.

(** The PID variant's sum of five beams divided by 5 is the MPC
    variant's [getAverageRange] with half-width 2, value for value and
    error for error; the lateral ranges the PID callback is meant to use
    are therefore the ones the MPC callback uses. *)
Theorem five_beam_mean_is_average (range_min range_max : R) (data : LaserScan) (c : Z) :
  PID.five_beam_mean range_min range_max data (c - 2) (c - 1) c (c + 1) (c + 2)
  = MPC.getAverageRange range_min range_max data c 2.
Proof.
  unfold PID.five_beam_mean, MPC.getAverageRange.
  rewrite py_range_five. cbn [for_each].
  rewrite !getRange_agree.
  destruct (PID.getRange range_min range_max data (c - 2)) as [r0 | e | ];
    cbn [bind]; try reflexivity.
  destruct (PID.getRange range_min range_max data (c - 1)) as [r1 | e | ];
    cbn [bind]; try reflexivity.
  destruct (PID.getRange range_min range_max data c) as [r2 | e | ];
    cbn [bind]; try reflexivity.
  destruct (PID.getRange range_min range_max data (c + 1)) as [r3 | e | ];
    cbn [bind]; try reflexivity.
  destruct (PID.getRange range_min range_max data (c + 2)) as [r4 | e | ];
    cbn [bind]; try reflexivity.
  rewrite fadd_zero_l. reflexivity.
Qed.

(** With half-width 0 the average is the beam itself. *)
Theorem getAverageRange_single_beam (range_min range_max : R) (data : LaserScan)
        (beam_index : Z) :
  MPC.getAverageRange range_min range_max data beam_index 0
  = MPC.getRange range_min range_max data beam_index.
Proof.
  unfold MPC.getAverageRange. rewrite py_range_one. cbn [for_each].
  destruct (MPC.getRange range_min range_max data beam_index) as [r | e | ] eqn:Hr;
    cbn [bind]; try reflexivity.
  destruct (getRange_finite _ _ _ _ _ Hr) as [x ->].
  unfold fdiv, float_of_int. change (2 * 0 + 1)%Z with 1%Z.
  assert (E : Reqb 1 0 = false) by (apply Reqb_false; lra).
  rewrite E. simpl fadd. cbv iota beta. do 2 f_equal. lra.
Qed.

(** For a half-width [k >= 0], [getAverageRange] raises [IndexError]
    exactly when its window holds an index that cannot be read, that is
    one at or above [len] or below [-len]; on the empty scan every
    window does. *)
Theorem getAverageRange_fails_iff (range_min range_max : R) (data : LaserScan)
        (beam_index k : Z) :
  (0 <= k)%Z ->
  (MPC.getAverageRange range_min range_max data beam_index k = Raise IndexError <->
   exists j : Z, (beam_index - k <= j <= beam_index + k)%Z /\ outside data j) /\
  (ranges data = [] ->
   MPC.getAverageRange range_min range_max data beam_index k = Raise IndexError).
Proof.
  intros Hk.
  assert (Hiff :
    MPC.getAverageRange range_min range_max data beam_index k = Raise IndexError <->
    exists j : Z, (beam_index - k <= j <= beam_index + k)%Z /\ outside data j).
  { split.
    - intros Hfail.
      destruct (Z_lt_dec (beam_index - k) (- Z.of_nat (List.length (ranges data))))
        as [Hlow | Hlow].
      { exists (beam_index - k)%Z. split; [lia | right; exact Hlow]. }
      destruct (Z_le_dec (Z.of_nat (List.length (ranges data))) (beam_index + k))
        as [Hhigh | Hhigh].
      { exists (beam_index + k)%Z. split; [lia | left; exact Hhigh]. }
      exfalso. revert Hfail. unfold MPC.getAverageRange.
      match goal with
      | |- context [for_each ?l ?s ?f] =>
          assert (Hb : forall s0 a, In a l -> exists s', f s0 a = Ok s');
          [ | destruct (for_each_ok f l Hb s) as [d ->] ]
      end.
      + intros s a Hin. apply In_py_range in Hin. unfold MPC.getRange.
        destruct (py_index_in_range (ranges data) a) as (v & -> & _); [lia | ].
        simpl. eauto.
      + cbn [bind].
        destruct (fdiv_nonzero d (IZR (2 * k + 1)) (odd_not_zero k)) as [q Hq].
        unfold float_of_int. rewrite Hq. discriminate.
    - intros (j & Hj & Hout). eapply getAverageRange_outside; eassumption. }
  split; [exact Hiff | ].
  intros Hempty. apply Hiff. exists beam_index. split; [lia | ].
  unfold outside. rewrite Hempty. simpl. lia.
Qed.

(** A window around beam 3 of half-width 1 on the empty scan. *)
Lemma getAverageRange_fails_iff_witness :
  MPC.getAverageRange 0 30 {| ranges := [] |} 3 1 = Raise IndexError.
Proof.
  assert (Hk : (0 <= 1)%Z) by lia.
  exact (proj2 (getAverageRange_fails_iff 0 30 {| ranges := [] |} 3 1 Hk) eq_refl).
Defined.

Lemma sum_between (range_min range_max : R) (data : LaserScan) (lo hi : R)
      (l : list Z) :
  (forall i x, In i l ->
               MPC.getRange range_min range_max data i = Ok (Fin x) -> lo <= x <= hi) ->
  forall (acc : R) (d : pyfloat),
    for_each l (Fin acc)
             (fun dist i => r <- MPC.getRange range_min range_max data i ;;
                            Ok (fadd dist r)) = Ok d ->
    exists s : R,
      d = Fin s /\
      acc + INR (List.length l) * lo <= s <= acc + INR (List.length l) * hi.
Proof.
  induction l as [ | i l IH]; intros Hin acc d.
  - simpl. intros H. inversion H. exists acc. split; [reflexivity | lra].
  - cbn [for_each].
    destruct (MPC.getRange range_min range_max data i) as [r | e | ] eqn:Hr;
      cbn [bind]; try discriminate.
    destruct (getRange_finite _ _ _ _ _ Hr) as [x ->].
    pose proof (Hin i x (or_introl eq_refl) Hr) as Hx.
    simpl fadd. intros H.
    destruct (IH (fun j y Hj => Hin j y (or_intror Hj)) _ _ H) as (s & -> & Hs).
    exists s. split; [reflexivity | ].
    change (List.length (i :: l)) with (S (List.length l)).
    rewrite S_INR. lra.
Qed.

Lemma average_between (range_min range_max : R) (data : LaserScan) (lo hi : R)
      (beam_index k : Z) (r : pyfloat) :
  (0 <= k)%Z ->
  (forall i x, (beam_index - k <= i <= beam_index + k)%Z ->
               MPC.getRange range_min range_max data i = Ok (Fin x) -> lo <= x <= hi) ->
  MPC.getAverageRange range_min range_max data beam_index k = Ok r ->
  exists m : R, r = Fin m /\ lo <= m <= hi.
Proof.
  intros Hk Hwin. unfold MPC.getAverageRange.
  match goal with
  | |- context [for_each ?l ?s ?f] => destruct (for_each l s f) as [d | e | ] eqn:Hd
  end; cbn [bind]; try discriminate.
  apply sum_between with (lo := lo) (hi := hi) in Hd.
  - destruct Hd as (s & -> & Hs).
    rewrite py_range_length in Hs.
    replace (beam_index + k + 1 - (beam_index - k))%Z with (2 * k + 1)%Z in Hs by lia.
    rewrite INR_IZR_INZ, Z2Nat.id in Hs by lia.
    assert (Hpos : 0 < IZR (2 * k + 1)) by (apply IZR_lt; lia).
    unfold fdiv, float_of_int.
    assert (E : Reqb (IZR (2 * k + 1)) 0 = false) by (apply Reqb_false; lra).
    rewrite E. intros H. inversion H.
    exists (s / IZR (2 * k + 1)). split; [reflexivity | ].
    split.
    + apply Rmult_le_reg_r with (r := IZR (2 * k + 1)); [exact Hpos | ].
      replace (s / IZR (2 * k + 1) * IZR (2 * k + 1)) with s by (field; lra). lra.
    + apply Rmult_le_reg_r with (r := IZR (2 * k + 1)); [exact Hpos | ].
      replace (s / IZR (2 * k + 1) * IZR (2 * k + 1)) with s by (field; lra). lra.
  - intros i x Hin. apply In_py_range in Hin. apply Hwin. lia.
Qed.

(** The average lies between any two bounds that hold for every
    sanitized beam of the window: it is no smaller than the smallest and
    no larger than the largest of them. *)
Theorem getAverageRange_between (range_min range_max : R) (data : LaserScan)
        (lo hi : R) (beam_index k : Z) :
  (0 <= k)%Z ->
  (forall i x, (beam_index - k <= i <= beam_index + k)%Z ->
               MPC.getRange range_min range_max data i = Ok (Fin x) -> lo <= x <= hi) ->
  (exists m : R,
      MPC.getAverageRange range_min range_max data beam_index k = Ok (Fin m) /\
      lo <= m <= hi) \/
  MPC.getAverageRange range_min range_max data beam_index k = Raise IndexError.
Proof.
  intros Hk Hwin.
  destruct (getAverageRange_outcome range_min range_max data beam_index k)
    as [[r Hr] | Hr]; [left | right; exact Hr].
  destruct (average_between _ _ _ lo hi _ _ _ Hk Hwin Hr) as (m & -> & Hm).
  exists m. split; assumption.
Qed.

(** Beams 1, 2, 3 averaged around the middle one. *)
Lemma getAverageRange_between_witness :
  (exists m : R,
      MPC.getAverageRange 0 30 {| ranges := [Fin 1; Fin 2; Fin 3] |} 1 1 = Ok (Fin m) /\
      1 <= m <= 3) \/
  MPC.getAverageRange 0 30 {| ranges := [Fin 1; Fin 2; Fin 3] |} 1 1 = Raise IndexError.
Proof.
  assert (Hk : (0 <= 1)%Z) by lia.
  assert (Hwin : forall i x, (1 - 1 <= i <= 1 + 1)%Z ->
             MPC.getRange 0 30 {| ranges := [Fin 1; Fin 2; Fin 3] |} i = Ok (Fin x) ->
             1 <= x <= 3).
  { intros i x Hi.
    assert (Hcase : i = 0%Z \/ i = 1%Z \/ i = 2%Z) by lia.
    destruct Hcase as [-> | [-> | ->]].
    - rewrite (mpc_getRange_at 0 30 _ 0 1) by (first [reflexivity | lra]).
      intros H. inversion H. lra.
    - rewrite (mpc_getRange_at 0 30 _ 1 2) by (first [reflexivity | lra]).
      intros H. inversion H. lra.
    - rewrite (mpc_getRange_at 0 30 _ 2 3) by (first [reflexivity | lra]).
      intros H. inversion H. lra. }
  exact (getAverageRange_between 0 30 {| ranges := [Fin 1; Fin 2; Fin 3] |}
           1 3 1 1 Hk Hwin).
Defined.

(** ** What [getRange] can return *)

(** Whatever the thresholds, a sanitized value is 0, 50, or the raw
    value itself, and the raw value is kept only when it is a finite
    number of [[range_min, range_max]]. *)
Lemma sanitize_outcomes (range_min range_max : R) (v : pyfloat) :
  MPC.sanitize range_min range_max v = Fin 0 \/
  MPC.sanitize range_min range_max v = Fin 50 \/
  (exists x : R, v = Fin x /\ range_min <= x <= range_max /\
                 MPC.sanitize range_min range_max v = Fin x).
Proof.
  unfold MPC.sanitize, fgt.
  destruct v as [ | | | x]; simpl.
  - destruct (Rltb range_max 0); auto.
  - auto.
  - destruct (Rltb range_max 0); auto.
  - destruct (Rltb x range_min) eqn:Hlo; simpl.
    + destruct (Rltb range_max 0); auto.
    + destruct (Rltb range_max x) eqn:Hhi; auto.
      apply Rltb_false in Hlo. apply Rltb_false in Hhi.
      right; right. exists x. repeat split; auto.
Qed.

Lemma getRange_bounded (range_min range_max : R) (data : LaserScan) (i : Z) (x : R) :
  0 <= range_min -> range_max <= 50 ->
  MPC.getRange range_min range_max data i = Ok (Fin x) -> 0 <= x <= 50.
Proof.
  intros H0 H50. unfold MPC.getRange.
  destruct (py_index (ranges data) i) as [v | e | ]; simpl; try discriminate.
  intros H. inversion H as [Hs].
  destruct (sanitize_outcomes range_min range_max v)
    as [E | [E | (y & -> & Hy & E)]]; rewrite E in Hs; inversion Hs; subst; lra.
Qed.

(** With thresholds inside [[0, 50]] the two lateral ranges of the MPC
    variant, when they are returned, are finite numbers of [[0, 50]]. *)
Theorem lateral_ranges_bounded (range_min range_max : R) (data : LaserScan) :
  0 <= range_min -> range_max <= 50 ->
  (exists r l : R,
      MPC.getLateralRanges range_min range_max data
      = Ok (PyList [PyFloat (Fin r); PyFloat (Fin l)]) /\
      0 <= r <= 50 /\ 0 <= l <= 50) \/
  MPC.getLateralRanges range_min range_max data = Raise IndexError.
Proof.
  intros H0 H50. unfold MPC.getLateralRanges.
  assert (Hb : forall c i x, (c - 2 <= i <= c + 2)%Z ->
             MPC.getRange range_min range_max data i = Ok (Fin x) -> 0 <= x <= 50).
  { intros c i x _. apply getRange_bounded; assumption. }
  assert (Hk : (0 <= 2)%Z) by lia.
  destruct (getAverageRange_outcome range_min range_max data 180 2)
    as [[r Hr] | ->]; [ | right; reflexivity].
  destruct (average_between _ _ _ 0 50 _ _ _ Hk (Hb 180%Z) Hr) as (r' & -> & Hr').
  rewrite Hr. cbn [bind].
  destruct (getAverageRange_outcome range_min range_max data 900 2)
    as [[l Hl] | ->]; [ | right; reflexivity].
  destruct (average_between _ _ _ 0 50 _ _ _ Hk (Hb 900%Z) Hl) as (l' & -> & Hl').
  rewrite Hl. cbn [bind].
  left. exists r', l'. repeat split; lra.
Qed.

(** Thresholds 0 and 30, the empty scan. *)
Lemma lateral_ranges_bounded_witness :
  (exists r l : R,
      MPC.getLateralRanges 0 30 {| ranges := [] |}
      = Ok (PyList [PyFloat (Fin r); PyFloat (Fin l)]) /\
      0 <= r <= 50 /\ 0 <= l <= 50) \/
  MPC.getLateralRanges 0 30 {| ranges := [] |} = Raise IndexError.
Proof.
  assert (H0 : 0 <= 0) by lra.
  assert (H50 : 30 <= 50) by lra.
  exact (lateral_ranges_bounded 0 30 {| ranges := [] |} H0 H50).
Defined.

(** Sanitizing twice is sanitizing once, as soon as [range_min] does not
    exceed the substitute 50 (otherwise 50 itself is below [range_min]
    and a second pass turns it into 0). *)
Theorem sanitize_idempotent (range_min range_max : R) (v : pyfloat) :
  range_min <= 50 ->
  MPC.sanitize range_min range_max (MPC.sanitize range_min range_max v)
  = MPC.sanitize range_min range_max v /\
  PID.sanitize range_min range_max (PID.sanitize range_min range_max v)
  = PID.sanitize range_min range_max v.
Proof.
  intros H50.
  assert (Hm : MPC.sanitize range_min range_max (MPC.sanitize range_min range_max v)
               = MPC.sanitize range_min range_max v).
  { unfold MPC.sanitize, fgt. destruct v as [ | | | x]; simpl.
    - destruct (Rltb range_max 0) eqn:E0; simpl.
      + assert (E1 : Rltb 50 range_min = false) by (apply Rltb_false; lra).
        rewrite E1; simpl. apply Rltb_true in E0.
        assert (E2 : Rltb range_max 50 = true) by (apply Rltb_true; lra).
        rewrite E2. reflexivity.
      + destruct (Rltb 0 range_min); simpl; rewrite E0; reflexivity.
    - assert (E1 : Rltb 50 range_min = false) by (apply Rltb_false; lra).
      rewrite E1; simpl. destruct (Rltb range_max 50); reflexivity.
    - destruct (Rltb range_max 0) eqn:E0; simpl.
      + assert (E1 : Rltb 50 range_min = false) by (apply Rltb_false; lra).
        rewrite E1; simpl. apply Rltb_true in E0.
        assert (E2 : Rltb range_max 50 = true) by (apply Rltb_true; lra).
        rewrite E2. reflexivity.
      + destruct (Rltb 0 range_min); simpl; rewrite E0; reflexivity.
    - destruct (Rltb x range_min) eqn:Elo; simpl.
      + destruct (Rltb range_max 0) eqn:E0; simpl.
        * assert (E1 : Rltb 50 range_min = false) by (apply Rltb_false; lra).
          rewrite E1; simpl. apply Rltb_true in E0.
          assert (E2 : Rltb range_max 50 = true) by (apply Rltb_true; lra).
          rewrite E2. reflexivity.
        * destruct (Rltb 0 range_min); simpl; rewrite E0; reflexivity.
      + destruct (Rltb range_max x) eqn:Ehi; simpl.
        * assert (E1 : Rltb 50 range_min = false) by (apply Rltb_false; lra).
          rewrite E1; simpl. destruct (Rltb range_max 50); reflexivity.
        * rewrite Elo; simpl. rewrite Ehi. reflexivity. }
  split; [exact Hm | ].
  rewrite <- !sanitize_agree. exact Hm.
Qed.

(** Thresholds 0 and 30, the reading plus infinity. *)
Lemma sanitize_idempotent_witness :
  MPC.sanitize 0 30 (MPC.sanitize 0 30 PInf) = MPC.sanitize 0 30 PInf.
Proof.
  assert (H : 0 <= 50) by lra.
  exact (proj1 (sanitize_idempotent 0 30 PInf H)).
Defined.

(** With [0 <= range_min] and [range_max <= 50] sanitizing keeps the
    order of readings: a reading that is no larger than another is not
    sanitized to a larger value. *)
Theorem sanitize_monotone (range_min range_max : R) (v w : pyfloat) :
  0 <= range_min -> range_max <= 50 ->
  fle v w = true ->
  fle (MPC.sanitize range_min range_max v) (MPC.sanitize range_min range_max w) = true.
Proof.
  intros H0 H50 Hvw.
  unfold MPC.sanitize, fgt.
  destruct v as [ | | | a], w as [ | | | b]; simpl in *; try discriminate; rdec;
    simpl; rdec; try congruence.
Qed.

(** Thresholds 0 and 30, readings 10 and plus infinity. *)
Lemma sanitize_monotone_witness :
  fle (MPC.sanitize 0 30 (Fin 10)) (MPC.sanitize 0 30 PInf) = true.
Proof.
  assert (H0 : 0 <= 0) by lra.
  assert (H50 : 30 <= 50) by lra.
  exact (sanitize_monotone 0 30 (Fin 10) PInf H0 H50 eq_refl).
Defined.

(** ** Heading and offset of the MPC variant *)

Lemma whole_turns (x : R) (k : Z) :
  cos (x + 2 * IZR k * PI) = cos x /\ sin (x + 2 * IZR k * PI) = sin x.
Proof.
  destruct (Z_le_dec 0 k) as [Hk | Hk].
  - rewrite <- (Z2Nat.id k Hk), <- INR_IZR_INZ.
    split; [apply cos_period | apply sin_period].
  - assert (Hn : (0 <= - k)%Z) by lia.
    set (y := x + 2 * IZR k * PI).
    assert (Hx : x = y + 2 * INR (Z.to_nat (- k)) * PI).
    { unfold y. rewrite INR_IZR_INZ, Z2Nat.id by exact Hn.
      rewrite opp_IZR. ring. }
    clearbody y.
    split; rewrite Hx; symmetry; [apply cos_period | apply sin_period].
Qed.

(** The loops against angular overflow change neither the cosine nor
    the sine of the heading, so the offset of line 163 is the one the
    unnormalized heading would give. *)
Theorem normalization_keeps_offset (x : R) :
  exists (y : R) (n : nat),
    (forall fuel, (n <= fuel)%nat -> MPC.normalize_angle fuel (Fin x) = Ok (Fin y)) /\
    cos y = cos x /\ sin y = sin x /\
    (forall L_ R_ : R,
        MPC.lateral_offset (Fin L_) (Fin R_) (Fin y)
        = MPC.lateral_offset (Fin L_) (Fin R_) (Fin x)).
Proof.
  destruct (normalize_angle_runs x) as (y & n & Hrun & _ & _ & k & Hk).
  destruct (whole_turns x k) as [Hc Hs]. rewrite <- Hk in Hc, Hs.
  exists y, n. repeat split; try assumption.
  intros L_ R_. rewrite !lateral_offset_finite, Hc. reflexivity.
Qed.

(** The offset is at most half the difference of the two lateral
    ranges, hence at most 25 for ranges of [[0, 50]], and it changes
    sign when the two ranges are exchanged. *)
Theorem lateral_offset_bound (L_ R_ phi : R) :
  exists oc : R,
    MPC.lateral_offset (Fin L_) (Fin R_) (Fin phi) = Fin oc /\
    Rabs oc <= Rabs (L_ - R_) / 2 /\
    (0 <= L_ <= 50 -> 0 <= R_ <= 50 -> Rabs oc <= 25) /\
    MPC.lateral_offset (Fin R_) (Fin L_) (Fin phi) = Fin (- oc).
Proof.
  exists (0.5 * (L_ - R_) * cos phi).
  assert (Hb : Rabs (0.5 * (L_ - R_) * cos phi) <= Rabs (L_ - R_) / 2).
  { rewrite !Rabs_mult.
    assert (Hh : Rabs 0.5 = 0.5) by (apply Rabs_right; lra).
    rewrite Hh.
    assert (Hc : Rabs (cos phi) <= 1).
    { apply Rabs_le. pose proof (COS_bound phi). lra. }
    pose proof (Rabs_pos (L_ - R_)) as Hp.
    pose proof (Rabs_pos (cos phi)) as Hq. nra. }
  split; [apply lateral_offset_finite | ].
  split; [exact Hb | ]. split.
  - intros HL HR.
    assert (Hd : Rabs (L_ - R_) <= 50) by (apply Rabs_le; lra). lra.
  - rewrite lateral_offset_finite. f_equal. ring.
Qed.

(** For a beam index of the 1081-beam scan the heading needs at most
    one turn: fuel 1 is enough, and the published angle is the raw one,
    moved up by a full turn when [L >= R] and the beam lies beyond 900,
    moved down by a full turn when [L < R] and it lies before 180. *)
Theorem heading_within_one_turn (L_ R_ : R) (min_index : Z) (fuel : nat) :
  (0 <= min_index <= 1080)%Z -> (1 <= fuel)%nat ->
  (R_ <= L_ -> (min_index <= 900)%Z ->
   MPC.heading fuel (Fin L_) (Fin R_) min_index
   = Ok (Fin ((IZR (540 - min_index) / 4 - 90) * PI / 180))) /\
  (R_ <= L_ -> (900 < min_index)%Z ->
   MPC.heading fuel (Fin L_) (Fin R_) min_index
   = Ok (Fin ((IZR (540 - min_index) / 4 - 90) * PI / 180 + 2 * PI))) /\
  (L_ < R_ -> (180 <= min_index)%Z ->
   MPC.heading fuel (Fin L_) (Fin R_) min_index
   = Ok (Fin ((IZR (540 - min_index) / 4 + 90) * PI / 180))) /\
  (L_ < R_ -> (min_index < 180)%Z ->
   MPC.heading fuel (Fin L_) (Fin R_) min_index
   = Ok (Fin ((IZR (540 - min_index) / 4 + 90) * PI / 180 + - (2 * PI)))).
Proof.
  intros Hidx Hfuel. pose proof PI_RGT_0 as Hpi.
  assert (Hlo : -540 <= IZR (540 - min_index)) by (apply IZR_le; lia).
  assert (Hhi : IZR (540 - min_index) <= 540) by (apply IZR_le; lia).
  destruct fuel as [ | fuel]; [lia | ].
  unfold MPC.heading, fge. cbn [fle].
  set (d := IZR (540 - min_index)) in *.
  assert (Plo : -540 * PI <= d * PI) by (apply Rmult_le_compat_r; lra).
  assert (Phi : d * PI <= 540 * PI) by (apply Rmult_le_compat_r; lra).
  split; [ | split; [ | split]].
  - intros Hge Hi.
    assert (E : Rleb R_ L_ = true) by (apply Rleb_true; exact Hge). rewrite E.
    assert (Hd : -360 <= d) by (apply IZR_le; lia).
    assert (Pd : -360 * PI <= d * PI) by (apply Rmult_le_compat_r; lra).
    clearbody d. cbn [np_radians].
    apply normalize_angle_inside. split; lra.
  - intros Hge Hi.
    assert (E : Rleb R_ L_ = true) by (apply Rleb_true; exact Hge). rewrite E.
    assert (Hd : d < -360) by (apply IZR_lt; lia).
    assert (Pd : d * PI < -360 * PI) by (apply Rmult_lt_compat_r; lra).
    clearbody d. cbn [np_radians].
    unfold MPC.normalize_angle.
    rewrite while_loop_exit by (unfold fgt; simpl; apply Rltb_false; lra).
    cbn [bind].
    rewrite while_loop_step by (simpl; apply Rltb_true; lra).
    simpl fadd. apply while_loop_exit. simpl. apply Rltb_false. lra.
  - intros Hlt Hi.
    assert (E : Rleb R_ L_ = false) by (apply Rleb_false; exact Hlt). rewrite E.
    assert (Hd : d <= 360) by (apply IZR_le; lia).
    assert (Pd : d * PI <= 360 * PI) by (apply Rmult_le_compat_r; lra).
    clearbody d. cbn [np_radians].
    apply normalize_angle_inside. split; lra.
  - intros Hlt Hi.
    assert (E : Rleb R_ L_ = false) by (apply Rleb_false; exact Hlt). rewrite E.
    assert (Hd : 360 < d) by (apply IZR_lt; lia).
    assert (Pd : 360 * PI < d * PI) by (apply Rmult_lt_compat_r; lra).
    clearbody d. cbn [np_radians].
    unfold MPC.normalize_angle.
    rewrite while_loop_step by (unfold fgt; simpl; apply Rltb_true; lra).
    unfold fsub; simpl fadd.
    rewrite while_loop_exit by (unfold fgt; simpl; apply Rltb_false; lra).
    cbn [bind]. apply while_loop_exit. simpl. apply Rltb_false. lra.
Qed.

(** Beam 1000 with equal lateral ranges: -205 degrees become 155. *)
Lemma heading_within_one_turn_witness :
  MPC.heading 1 (Fin 1) (Fin 1) 1000
  = Ok (Fin ((IZR (540 - 1000) / 4 - 90) * PI / 180 + 2 * PI)).
Proof.
  assert (Hidx : (0 <= 1000 <= 1080)%Z) by lia.
  assert (Hfuel : (1 <= 1)%nat) by lia.
  assert (Hge : 1 <= 1) by lra.
  assert (Hi : (900 < 1000)%Z) by lia.
  exact (proj1 (proj2 (heading_within_one_turn 1 1 1000 1 Hidx Hfuel)) Hge Hi).
Defined.

(** ** The index lookup of [get_minimum_range] *)

Lemma feq_refl (a : pyfloat) : isnan a = false -> feq a a = true.
Proof. intros; fcases. Qed.

Lemma fle_antisym (a b : pyfloat) :
  fle a b = true -> fle b a = true -> feq a b = true.
Proof. intros; fcases. Qed.

Lemma flt_le_false (a b : pyfloat) : fle a b = false -> flt a b = false.
Proof. intros; fcases. Qed.

Lemma feq_le_false (a b : pyfloat) : fle a b = false -> feq a b = false.
Proof. intros; fcases. Qed.

Lemma index_from_found (l : list pyfloat) (x : pyfloat) :
  forall s i : Z,
    index_from l x s = Ok i ->
    (s <= i < s + Z.of_nat (List.length l))%Z /\
    (exists y, nth_error l (Z.to_nat (i - s)) = Some y /\ feq y x = true) /\
    (forall (j : nat) (z : pyfloat),
        (j < Z.to_nat (i - s))%nat -> nth_error l j = Some z -> feq z x = false).
Proof.
  induction l as [ | y l IH]; intros s i; simpl index_from; [discriminate | ].
  destruct (feq y x) eqn:E.
  - intros H. inversion H; subst i.
    replace (s - s)%Z with 0%Z by lia. simpl Z.to_nat.
    split; [simpl List.length; lia | ]. split.
    + exists y. split; [reflexivity | exact E].
    + intros j z Hj. lia.
  - intros H. destruct (IH _ _ H) as (Hr & (y' & Hn & Hy') & Hbefore).
    assert (Hs : Z.to_nat (i - s) = S (Z.to_nat (i - (s + 1)))) by lia.
    rewrite Hs. split; [simpl List.length; lia | ]. split.
    + exists y'. split; [exact Hn | exact Hy'].
    + intros [ | j] z Hj; simpl.
      * intros Hz. inversion Hz; subst z. exact E.
      * apply Hbefore. lia.
Qed.

Lemma index_from_exists (l : list pyfloat) (x y : pyfloat) :
  In y l -> feq y x = true -> forall s : Z, exists i : Z, index_from l x s = Ok i.
Proof.
  induction l as [ | z l IH]; intros Hin Hy s; [destruct Hin | ].
  simpl. destruct (feq z x) eqn:E; [eauto | ].
  destruct Hin as [-> | Hin]; [congruence | ].
  apply IH; assumption.
Qed.

(** The lookup of line 115 succeeds exactly on the scans that hold a
    range of at most 1000.0.  It then yields the lowest index at which
    the running minimum occurs (and line 118 raises [TypeError]); on
    every other scan, the empty one included, it raises [ValueError]. *)
Theorem minimum_index_lookup (data : LaserScan) :
  ((exists r, In r (ranges data) /\ fle r (Fin 1000) = true) ->
   exists i : Z,
     list_index (ranges data) (MPC.running_minimum (ranges data)) = Ok i /\
     (0 <= i < Z.of_nat (List.length (ranges data)))%Z /\
     nth_error (ranges data) (Z.to_nat i) = Some (MPC.running_minimum (ranges data)) /\
     (forall (j : nat) (z : pyfloat),
         (j < Z.to_nat i)%nat -> nth_error (ranges data) j = Some z ->
         feq z (MPC.running_minimum (ranges data)) = false) /\
     MPC.get_minimum_range data = Raise TypeError) /\
  ((forall r, In r (ranges data) -> fle r (Fin 1000) = false) ->
   list_index (ranges data) (MPC.running_minimum (ranges data)) = Raise ValueError /\
   MPC.get_minimum_range data = Raise ValueError).
Proof.
  destruct (running_minimum_from (ranges data) (Fin 1000) eq_refl)
    as (Hnan & Hin & Hle & Hall).
  fold (MPC.running_minimum (ranges data)) in Hnan, Hin, Hle, Hall.
  split.
  - intros (r & Hr & Hr1000).
    assert (Hex : exists y, In y (ranges data) /\
                            feq y (MPC.running_minimum (ranges data)) = true).
    { destruct Hin as [Heq | Hmem].
      - exists r. split; [exact Hr | ].
        assert (Hrn : isnan r = false) by (destruct r; simpl in *; congruence).
        pose proof (Hall r Hr Hrn) as Hmr. rewrite Heq in *.
        apply fle_antisym; assumption.
      - exists (MPC.running_minimum (ranges data)).
        split; [exact Hmem | apply feq_refl; exact Hnan]. }
    destruct Hex as (y & Hy & Hfeq).
    destruct (index_from_exists _ _ _ Hy Hfeq 0%Z) as [i Hi].
    destruct (index_from_found _ _ _ _ Hi) as (Hrange & (y' & Hn & Hy') & Hbefore).
    replace (i - 0)%Z with i in * by lia.
    exists i. unfold list_index. rewrite Hi.
    split; [reflexivity | ]. split; [lia | ]. split.
    + rewrite Hn. f_equal. apply feq_eq. exact Hy'.
    + split; [exact Hbefore | ].
      unfold MPC.get_minimum_range, list_index. rewrite Hi. reflexivity.
  - intros Hnone.
    assert (Hm : MPC.running_minimum (ranges data) = Fin 1000).
    { apply running_minimum_unchanged. intros r Hr.
      apply flt_le_false, Hnone, Hr. }
    assert (Hidx : list_index (ranges data) (MPC.running_minimum (ranges data))
                   = Raise ValueError).
    { rewrite Hm. apply index_from_absent. intros y Hy.
      apply feq_le_false, Hnone, Hy. }
    split; [exact Hidx | ].
    unfold MPC.get_minimum_range. rewrite Hidx. reflexivity.
Qed.

(** ** The trend window and the two terms of the steering error *)

Lemma difference_loop_length (range_min range_max : R) (data : LaserScan)
      (beam_index : Z) (l : list Z) :
  forall distances ds : list pyfloat,
    for_each l distances
             (fun distances i =>
                a <- PID.getRange range_min range_max data (beam_index + i + 1) ;;
                b <- PID.getRange range_min range_max data (beam_index + i) ;;
                Ok (distances ++ [fsub a b])) = Ok ds ->
    List.length ds = (List.length distances + List.length l)%nat.
Proof.
  induction l as [ | i l IH]; intros distances ds; cbn [for_each].
  - intros H. inversion H. simpl. lia.
  - destruct (PID.getRange range_min range_max data (beam_index + i + 1))
      as [a | e | ]; cbn [bind]; try discriminate.
    destruct (PID.getRange range_min range_max data (beam_index + i))
      as [b | e | ]; cbn [bind]; try discriminate.
    intros H. rewrite (IH _ _ H), length_app. simpl. lia.
Qed.

(** For a length [n >= 0], read as the next even number [n'] when [n] is
    odd, the loop of lines 120-121 collects [n' + 1] differences (nine
    for the call with length 8), one more than the window length; an odd
    length behaves as the even length above it. *)
Theorem difference_list_length (range_min range_max : R) (data : LaserScan)
        (beam_index length : Z) (ds : list pyfloat) :
  (0 <= length)%Z ->
  PID.difference_list range_min range_max data beam_index length = Ok ds ->
  Z.of_nat (List.length ds)
  = ((if (length mod 2 =? 1)%Z then length + 1 else length) + 1)%Z /\
  ((length mod 2 = 1)%Z ->
   PID.difference_list range_min range_max data beam_index (length + 1) = Ok ds).
Proof.
  intros Hlen. unfold PID.difference_list. cbv zeta.
  destruct (length mod 2 =? 1)%Z eqn:Hodd.
  - apply Z.eqb_eq in Hodd. intros H. split.
    + apply difference_loop_length in H. rewrite H, py_range_length. simpl List.length.
      pose proof (Z.div_mod (length + 1) 2 ltac:(lia)) as Hdm.
      pose proof (Z.div_mod (- (length + 1)) 2 ltac:(lia)) as Hdm'.
      pose proof (Z.mod_pos_bound (length + 1) 2 ltac:(lia)).
      pose proof (Z.mod_pos_bound (- (length + 1)) 2 ltac:(lia)).
      pose proof (Z.div_mod length 2 ltac:(lia)).
      lia.
    + intros _.
      assert (Heven : ((length + 1) mod 2 =? 1)%Z = false).
      { apply Z.eqb_neq.
        pose proof (Z.div_mod (length + 1) 2 ltac:(lia)).
        pose proof (Z.mod_pos_bound (length + 1) 2 ltac:(lia)).
        pose proof (Z.div_mod length 2 ltac:(lia)). lia. }
      rewrite Heven. exact H.
  - apply Z.eqb_neq in Hodd. intros H. split; [ | intros Hc; contradiction].
    apply difference_loop_length in H. rewrite H, py_range_length. simpl List.length.
    pose proof (Z.div_mod length 2 ltac:(lia)) as Hdm.
    pose proof (Z.div_mod (- length) 2 ltac:(lia)) as Hdm'.
    pose proof (Z.mod_pos_bound length 2 ltac:(lia)).
    pose proof (Z.mod_pos_bound (- length) 2 ltac:(lia)).
    lia.
Qed.

Lemma rising_scan_differences :
  PID.difference_list 0 30 {| ranges := [Fin 1; Fin 2; Fin 3; Fin 4] |} 1 2
  = Ok [fsub (Fin 2) (Fin 1); fsub (Fin 3) (Fin 2); fsub (Fin 4) (Fin 3)].
Proof.
  unfold PID.difference_list.
  change (py_range _ _) with [-1; 0; 1]%Z.
  cbn [bind for_each app].
  read_beams pid_getRange_at. reflexivity.
Qed.

(** The rising four-beam scan, centre 1, length 2: three differences. *)
Lemma difference_list_length_witness :
  Z.of_nat (List.length [fsub (Fin 2) (Fin 1); fsub (Fin 3) (Fin 2); fsub (Fin 4) (Fin 3)])
  = ((if (2 mod 2 =? 1)%Z then 2 + 1 else 2) + 1)%Z.
Proof.
  assert (Hlen : (0 <= 2)%Z) by lia.
  exact (proj1 (difference_list_length 0 30 _ 1 2 _ Hlen rising_scan_differences)).
Defined.

(** The argument of the first arctangent does not change when both
    lateral ranges are scaled by the same factor: it is blind to the
    width of the lane, as the comment above line 160 says. *)
Theorem first_tan_arg_scale_invariant (L_ R_ c : R) :
  c <> 0 -> L_ + R_ <> 0 ->
  PID.first_tan_arg (Fin (c * L_)) (Fin (c * R_)) = PID.first_tan_arg (Fin L_) (Fin R_).
Proof.
  intros Hc Hs.
  unfold PID.first_tan_arg, fdiv, float_of_int, PID.CCp.
  change (2 * 5)%Z with 10%Z. simpl fsub. simpl fadd. simpl fmul.
  assert (Hs' : c * L_ + c * R_ <> 0).
  { replace (c * L_ + c * R_) with (c * (L_ + R_)) by ring.
    apply Rmult_integral_contrapositive_currified; assumption. }
  assert (E1 : Reqb (10 * (c * L_ + c * R_)) 0 = false) by (apply Reqb_false; lra).
  assert (E2 : Reqb (10 * (L_ + R_)) 0 = false) by (apply Reqb_false; lra).
  cbv iota beta. rewrite E1, E2. cbv iota beta. do 2 f_equal. field. split; lra.
Qed.

(** Lateral ranges 3 and 1, doubled. *)
Lemma first_tan_arg_scale_invariant_witness :
  PID.first_tan_arg (Fin (2 * 3)) (Fin (2 * 1)) = PID.first_tan_arg (Fin 3) (Fin 1).
Proof.
  assert (Hc : 2 <> 0) by lra.
  assert (Hs : 3 + 1 <> 0) by lra.
  exact (first_tan_arg_scale_invariant 3 1 2 Hc Hs).
Defined.

Lemma atan_le (x y : R) : x <= y -> atan x <= atan y.
Proof.
  intros [Hlt | ->]; [left; apply atan_increasing; exact Hlt | right; reflexivity].
Qed.

Lemma first_tan_arg_value (L_ R_ : R) :
  0 <= L_ -> 0 <= R_ -> 0 < L_ + R_ ->
  PID.first_tan_arg (Fin L_) (Fin R_) = Ok (Fin ((L_ - R_) / (10 * (L_ + R_)))) /\
  - (1 / 10) <= (L_ - R_) / (10 * (L_ + R_)) <= 1 / 10.
Proof.
  intros HL HR Hs. split.
  - unfold PID.first_tan_arg, fdiv, float_of_int, PID.CCp.
    change (2 * 5)%Z with 10%Z. simpl fsub. simpl fadd. simpl fmul.
    assert (E : Reqb (10 * (L_ + R_)) 0 = false) by (apply Reqb_false; lra).
    cbv iota beta. rewrite E. reflexivity.
  - assert (Hpos : 0 < 10 * (L_ + R_)) by lra.
    split.
    + apply Rmult_le_reg_r with (r := 10 * (L_ + R_)); [exact Hpos | ].
      replace ((L_ - R_) / (10 * (L_ + R_)) * (10 * (L_ + R_))) with (L_ - R_)
        by (field; lra).
      lra.
    + apply Rmult_le_reg_r with (r := 10 * (L_ + R_)); [exact Hpos | ].
      replace ((L_ - R_) / (10 * (L_ + R_)) * (10 * (L_ + R_))) with (L_ - R_)
        by (field; lra).
      lra.
Qed.

(** For lateral ranges that are not negative and not both zero the
    first argument lies in [[-1/10, 1/10]], so the first term of the
    error is at most [arctan(1/10)] in size. *)
Theorem first_term_bound (L_ R_ : R) :
  0 <= L_ -> 0 <= R_ -> 0 < L_ + R_ ->
  exists t : R,
    PID.first_tan_arg (Fin L_) (Fin R_) = Ok (Fin t) /\
    - (1 / 10) <= t <= 1 / 10 /\
    np_arctan (Fin t) = Fin (atan t) /\
    - atan (1 / 10) <= atan t <= atan (1 / 10).
Proof.
  intros HL HR Hs.
  destruct (first_tan_arg_value L_ R_ HL HR Hs) as [Hv [Hlo Hhi]].
  exists ((L_ - R_) / (10 * (L_ + R_))).
  split; [exact Hv | ]. split; [split; assumption | ].
  split; [reflexivity | ]. split.
  - rewrite <- atan_opp. apply atan_le. exact Hlo.
  - apply atan_le. exact Hhi.
Qed.

(** Lateral ranges 3 and 1. *)
Lemma first_term_bound_witness :
  exists t : R,
    PID.first_tan_arg (Fin 3) (Fin 1) = Ok (Fin t) /\
    - (1 / 10) <= t <= 1 / 10 /\
    np_arctan (Fin t) = Fin (atan t) /\
    - atan (1 / 10) <= atan t <= atan (1 / 10).
Proof.
  assert (HL : 0 <= 3) by lra.
  assert (HR : 0 <= 1) by lra.
  assert (Hs : 0 < 3 + 1) by lra.
  exact (first_term_bound 3 1 HL HR Hs).
Defined.

(** The trend decides the sign of the error.  With positive ranges,
    when the trend value is positive and [R] exceeds a tenth of [F] the
    error of line 179 is negative; when the trend value is not positive
    and [L] exceeds a tenth of [F] it is positive. *)
Theorem steering_error_sign (R_ F_ L_ : R) (trend : pyfloat) :
  0 < R_ -> 0 < F_ -> 0 < L_ ->
  exists t1 t2 e : R,
    PID.first_tan_arg (Fin L_) (Fin R_) = Ok (Fin t1) /\
    PID.second_tan_arg trend (Fin R_) (Fin F_) (Fin L_) = Ok (Fin t2) /\
    PID.angular_error (Fin t1) (Fin t2) = Fin e /\
    (fgt trend (Fin 0) = true -> F_ / 10 < R_ -> e < 0) /\
    (fgt trend (Fin 0) = false -> F_ / 10 < L_ -> 0 < e).
Proof.
  intros HR HF HL.
  destruct (first_tan_arg_value L_ R_) as [Hv [Hlo Hhi]]; try lra.
  assert (Hdiv : forall a : R, fdiv (Fin a) (Fin F_) = Ok (Fin (a / F_))).
  { intros a. unfold fdiv.
    assert (E : Reqb F_ 0 = false) by (apply Reqb_false; lra).
    rewrite E. reflexivity. }
  exists ((L_ - R_) / (10 * (L_ + R_))).
  exists (if fgt trend (Fin 0) then - R_ / F_ else L_ / F_).
  exists (- atan ((L_ - R_) / (10 * (L_ + R_)))
          + atan (if fgt trend (Fin 0) then - R_ / F_ else L_ / F_)).
  split; [exact Hv | ]. split.
  { unfold PID.second_tan_arg. destruct (fgt trend (Fin 0)); simpl fneg;
      apply Hdiv. }
  split; [reflexivity | ].
  pose proof (atan_le _ _ Hlo) as Alo. pose proof (atan_le _ _ Hhi) as Ahi.
  rewrite atan_opp in Alo.
  split.
  - intros Ht Hr. rewrite Ht.
    assert (Hlt : - R_ / F_ < - (1 / 10)).
    { apply Rmult_lt_reg_r with (r := F_); [exact HF | ].
      replace (- R_ / F_ * F_) with (- R_) by (field; lra). lra. }
    apply atan_increasing in Hlt. rewrite atan_opp in Hlt. lra.
  - intros Ht Hl. rewrite Ht.
    assert (Hlt : 1 / 10 < L_ / F_).
    { apply Rmult_lt_reg_r with (r := F_); [exact HF | ].
      replace (L_ / F_ * F_) with L_ by (field; lra). lra. }
    apply atan_increasing in Hlt. lra.
Qed.

(** The ranges of the specification's example, [R = L = 5], [F = 10]. *)
Lemma steering_error_sign_witness :
  exists t1 t2 e : R,
    PID.first_tan_arg (Fin 5) (Fin 5) = Ok (Fin t1) /\
    PID.second_tan_arg (Fin 1) (Fin 5) (Fin 10) (Fin 5) = Ok (Fin t2) /\
    PID.angular_error (Fin t1) (Fin t2) = Fin e /\
    (fgt (Fin 1) (Fin 0) = true -> 10 / 10 < 5 -> e < 0) /\
    (fgt (Fin 1) (Fin 0) = false -> 10 / 10 < 5 -> 0 < e).
Proof.
  assert (HR : 0 < 5) by lra.
  assert (HF : 0 < 10) by lra.
  exact (steering_error_sign 5 10 5 (Fin 1) HR HF HR).
Defined.

(** ** The offset in closed form *)

(** In both branches of the heading the offset of line 163 comes to
    [|L - R| / 2 * sin(a)], where [a] is the angle [(540 - min_index)/4]
    degrees of the nearest beam from straight ahead.  Its sign therefore
    never depends on which lateral range is the larger one: for a beam
    index of the 1081-beam scan the offset is not negative when the
    nearest beam lies before index 540 and not positive when it lies
    after it, and with [L] different from [R] it is positive,
    respectively negative, there. *)
Theorem offset_closed_form (L_ R_ : R) (min_index : Z) :
  exists (phi : R) (n : nat),
    (forall fuel, (n <= fuel)%nat ->
       MPC.heading fuel (Fin L_) (Fin R_) min_index = Ok (Fin phi)) /\
    MPC.lateral_offset (Fin L_) (Fin R_) (Fin phi)
    = Fin (Rabs (L_ - R_) / 2 * sin (IZR (540 - min_index) / 4 * PI / 180)) /\
    ((0 <= min_index < 540)%Z ->
     0 <= Rabs (L_ - R_) / 2 * sin (IZR (540 - min_index) / 4 * PI / 180) /\
     (L_ <> R_ ->
      0 < Rabs (L_ - R_) / 2 * sin (IZR (540 - min_index) / 4 * PI / 180))) /\
    ((540 < min_index <= 1080)%Z ->
     Rabs (L_ - R_) / 2 * sin (IZR (540 - min_index) / 4 * PI / 180) <= 0 /\
     (L_ <> R_ ->
      Rabs (L_ - R_) / 2 * sin (IZR (540 - min_index) / 4 * PI / 180) < 0)).
Proof.
  pose proof PI_RGT_0 as Hpi.
  set (d := IZR (540 - min_index)).
  set (A := d / 4 * PI / 180).
  assert (Hpos : 0 <= Rabs (L_ - R_) / 2) by (pose proof (Rabs_pos (L_ - R_)); lra).
  assert (Hstrict : L_ <> R_ -> 0 < Rabs (L_ - R_) / 2).
  { intros Hne. assert (0 < Rabs (L_ - R_)) by (apply Rabs_pos_lt; lra). lra. }
  assert (Hsign1 : (0 <= min_index < 540)%Z ->
                   0 <= Rabs (L_ - R_) / 2 * sin A /\
                   (L_ <> R_ -> 0 < Rabs (L_ - R_) / 2 * sin A)).
  { intros Hi.
    assert (H0 : 1 <= d) by (apply IZR_le; lia).
    assert (H1 : d <= 540) by (apply IZR_le; lia).
    assert (P0 : 1 * PI <= d * PI) by (apply Rmult_le_compat_r; lra).
    assert (P1 : d * PI <= 540 * PI) by (apply Rmult_le_compat_r; lra).
    assert (Hs : 0 < sin A) by (apply sin_gt_0; unfold A; lra).
    split.
    - apply Rmult_le_pos; lra.
    - intros Hne. apply Rmult_lt_0_compat; [apply Hstrict; exact Hne | exact Hs]. }
  assert (Hsign2 : (540 < min_index <= 1080)%Z ->
                   Rabs (L_ - R_) / 2 * sin A <= 0 /\
                   (L_ <> R_ -> Rabs (L_ - R_) / 2 * sin A < 0)).
  { intros Hi.
    assert (H0 : d <= -1) by (apply IZR_le; lia).
    assert (H1 : -540 <= d) by (apply IZR_le; lia).
    assert (P0 : d * PI <= -1 * PI) by (apply Rmult_le_compat_r; lra).
    assert (P1 : -540 * PI <= d * PI) by (apply Rmult_le_compat_r; lra).
    assert (Hs : 0 < sin (- A)) by (apply sin_gt_0; unfold A; lra).
    rewrite sin_neg in Hs.
    split.
    - replace 0 with (Rabs (L_ - R_) / 2 * 0) by ring.
      apply Rmult_le_compat_l; lra.
    - intros Hne. pose proof (Hstrict Hne) as Hp.
      replace 0 with (Rabs (L_ - R_) / 2 * 0) by ring.
      apply Rmult_lt_compat_l; lra. }
  unfold MPC.heading, fge. cbn [fle]. fold d.
  destruct (Rleb R_ L_) eqn:Hcmp; cbn [np_radians];
    match goal with
    | |- context [MPC.normalize_angle _ (Fin ?a)] =>
        destruct (normalize_angle_runs a) as (phi & n & Hrun & _ & _ & k & Hk);
        destruct (whole_turns a k) as [Hc _]; rewrite <- Hk in Hc
    end;
    exists phi, n; (split; [exact Hrun | ]).
  - apply Rleb_true in Hcmp.
    split; [ | split; [exact Hsign1 | exact Hsign2]].
    rewrite lateral_offset_finite, Hc. f_equal.
    replace ((d / 4 - 90) * PI / 180) with (A - PI / 2) by (unfold A; lra).
    rewrite cos_minus, cos_PI2, sin_PI2.
    rewrite Rabs_right by lra. lra.
  - apply Rleb_false in Hcmp.
    split; [ | split; [exact Hsign1 | exact Hsign2]].
    rewrite lateral_offset_finite, Hc. f_equal.
    replace ((d / 4 + 90) * PI / 180) with (A + PI / 2) by (unfold A; lra).
    rewrite cos_plus, cos_PI2, sin_PI2.
    rewrite Rabs_left by lra. lra.
Qed.

(** ** Misuse of the averaging window *)

(** A negative half-width gives an empty window: no beam is read, no
    error is raised even on the empty scan, and the result is 0. *)
Theorem getAverageRange_negative_half_width (range_min range_max : R)
        (data : LaserScan) (beam_index k : Z) :
  (k < 0)%Z ->
  py_range (beam_index - k) (beam_index + k + 1) = [] /\
  MPC.getAverageRange range_min range_max data beam_index k = Ok (Fin 0).
Proof.
  intros Hk.
  assert (Hr : py_range (beam_index - k) (beam_index + k + 1) = []).
  { unfold py_range.
    replace (Z.to_nat (beam_index + k + 1 - (beam_index - k))) with 0%nat by lia.
    reflexivity. }
  split; [exact Hr | ].
  unfold MPC.getAverageRange. rewrite Hr. cbn [for_each bind].
  unfold fdiv, float_of_int.
  assert (E : Reqb (IZR (2 * k + 1)) 0 = false)
    by (apply Reqb_false, odd_not_zero).
  rewrite E. do 2 f_equal. unfold Rdiv. ring.
Qed.

(** Half-width -1 on the empty scan. *)
Lemma getAverageRange_negative_half_width_witness :
  MPC.getAverageRange 0 30 {| ranges := [] |} 180 (-1) = Ok (Fin 0).
Proof.
  assert (Hk : (-1 < 0)%Z) by lia.
  exact (proj2 (getAverageRange_negative_half_width 0 30 {| ranges := [] |} 180 (-1) Hk)).
Defined.

(** ** Running a callback again *)



